(** * onelogin.Get: the OneLogin credential flow of clisso

    A shallow embedding of [src/onelogin/get.go].  The two functions of the
    file, [Get] and [getDevice], talk to the outside world all the time (the
    configuration, the OneLogin client, the terminal, the spinner, the clock
    and the AWS role-assumption call), so they are embedded in a small state
    monad over an abstract world: every collaborator is an oracle that
    answers from the current world and moves it forward, and every
    interaction is appended to a trace.  A Go [return] in the middle of a
    function and a Go runtime panic are outcomes of their own. *)

From Stdlib Require Import ZArith List String Ascii Bool Sumbool Lia.
From Stdlib Require Import Decimal DecimalString DecimalPos.
From Equations Require Import Equations.
Import ListNotations.

Open Scope string_scope.
Open Scope Z_scope.

(** ** Go values *)

(** A Go [error], represented by its message ([err.Error()]); a nil error is
    [None]. *)
Definition error := string.

(** What a Go call of type [(T, error)] hands back when the caller reads the
    value only after [err == nil]. *)
Inductive Result (A : Type) : Type :=
| Ok (a : A)
| Err (e : error).
Arguments Ok {A} a.
Arguments Err {A} e.

Definition nl : string := String (ascii_of_nat 10) EmptyString.

(** [fmt.Sprintf("%v", n)] and the verb [%d] for an [int]. *)
Definition format_int (n : Z) : string := NilZero.string_of_int (Z.to_int n).

(** [strconv.Atoi] on a 64-bit platform: an optional sign, then at least one
    decimal digit, and a value that fits an [int]; anything else is an error. *)
Definition digit_of (c : ascii) : option Z :=
  let n := Z.of_nat (nat_of_ascii c) in
  if (48 <=? n) && (n <=? 57) then Some (n - 48) else None.

Fixpoint parse_digits (acc : Z) (s : string) : option Z :=
  match s with
  | EmptyString => Some acc
  | String c rest =>
      match digit_of c with
      | Some d => parse_digits (10 * acc + d) rest
      | None => None
      end
  end.

Definition max_int : Z := 2 ^ 63 - 1.
Definition min_int : Z := - 2 ^ 63.

Definition Atoi (s : string) : option Z :=
  match s with
  | EmptyString => None
  | String c rest =>
      let '(neg, digits) :=
        if Ascii.eqb c "-" then (true, rest)
        else if Ascii.eqb c "+" then (false, rest)
        else (false, s) in
      match digits with
      | EmptyString => None
      | _ =>
          match parse_digits 0 digits with
          | None => None
          | Some n =>
              let v := if neg then - n else n in
              if (min_int <=? v) && (v <=? max_int) then Some v else None
          end
      end
  end.

(** ** The data of the flow

    The records below are declared by the OneLogin client, the [config], the
    [saml] and the [aws] packages; they carry the fields [get.go] reads or
    writes. *)

Record OneLoginProviderConfig := {
  ClientID : string;
  ClientSecret : string;
  Subdomain : string;
  Username : string;
  Region : string
}.

Record OneLoginAppConfig := { ID : string }.

Record GenerateSamlAssertionParams := {
  UsernameOrEmail : string;
  Password : string;
  saml_AppId : string;
  saml_Subdomain : string
}.

Record Device := { DeviceId : Z; DeviceType : string }.

Record SamlData := { StateToken : string; Devices : list Device }.

Record GenerateSamlAssertionResponse := { saml_Data : list SamlData }.

Record VerifyFactorParams := {
  AppId : string;
  vf_DeviceId : string;
  vf_StateToken : string;
  OtpToken : string;
  DoNotNotify : bool
}.

Record VerifyFactorResponse := {
  Status_Type : string;
  Status_Message : string;
  Data : string
}.

Record ARN := { Provider : string; Role : string }.

Record Credentials := {
  AccessKeyID : string;
  SecretAccessKey : string;
  SessionToken : string;
  Expiration : Z
}.

(** What [Get] returns: a pointer to [aws.Credentials] and an [error],
    either of which may be nil. *)
Definition GoResult : Type := option Credentials * option error.

(** ** Constants of get.go *)

Definition MFADeviceOneLoginProtect : string := "OneLogin Protect".
Definition MFAPushTimeout : Z := 30.
Definition MFAInterval : Z := 1.

(** ** The outside world *)

(** One entry per interaction, in the order the program performs them. *)
Inductive Event : Type :=
| EvGetOneLoginProvider (provider : string)
| EvGetOneLoginApp (app : string)
| EvNewClient (region : string)
| EvSpinnerStart
| EvSpinnerStop
| EvGenerateTokens (clientID clientSecret : string)
| EvPrint (s : string)
| EvScanln
| EvGetPasswd
| EvGenerateSamlAssertion (token : string) (p : GenerateSamlAssertionParams)
| EvVerifyFactor (token : string) (p : VerifyFactorParams)
| EvSleep (seconds : Z)
| EvAssumeSAMLRole (provider role data : string) (duration : Z)
| EvLog (s : string).

(** The collaborators of [get.go].  [W] is the state of the world, [Client]
    the OneLogin client handle.  [fmt.Scanln] yields the text it stored in
    its argument together with its error; [aws.AssumeSAMLRole] yields both
    components of its result, because [Get] returns them as they are. *)
Record Env (W Client : Type) : Type := {
  GetOneLoginProvider : string -> W -> Result OneLoginProviderConfig * W;
  GetOneLoginApp : string -> W -> Result OneLoginAppConfig * W;
  NewClient : string -> W -> Result Client * W;
  GenerateTokens : Client -> string -> string -> W -> Result string * W;
  Scanln : W -> (string * option error) * W;
  GetPasswd : W -> Result string * W;
  GenerateSamlAssertion :
    Client -> string -> GenerateSamlAssertionParams -> W ->
    Result GenerateSamlAssertionResponse * W;
  VerifyFactor :
    Client -> string -> VerifyFactorParams -> W -> Result VerifyFactorResponse * W;
  saml_Get : string -> Result ARN;
  AssumeSAMLRole :
    string -> string -> string -> Z -> W -> (option Credentials * option error) * W;
  ErrDurationExceeded : string;
  DurationExceededMessage : string;
  YellowString : string -> string
}.
Arguments GetOneLoginProvider {W Client} _ _ _.
Arguments GetOneLoginApp {W Client} _ _ _.
Arguments NewClient {W Client} _ _ _.
Arguments GenerateTokens {W Client} _ _ _ _ _.
Arguments Scanln {W Client} _ _.
Arguments GetPasswd {W Client} _ _.
Arguments GenerateSamlAssertion {W Client} _ _ _ _ _.
Arguments VerifyFactor {W Client} _ _ _ _ _.
Arguments saml_Get {W Client} _ _.
Arguments AssumeSAMLRole {W Client} _ _ _ _ _ _.
Arguments ErrDurationExceeded {W Client} _.
Arguments DurationExceededMessage {W Client} _.
Arguments YellowString {W Client} _ _.

(** ** The monad *)

Record State (W : Type) : Type := mkState { world : W; trace : list Event }.
Arguments mkState {W} _ _.
Arguments world {W} _.
Arguments trace {W} _.

(** [Done] is normal completion of a block, [Returned] a Go [return] that
    leaves the enclosing function, [Panic] a Go runtime panic, [OutOfFuel] the
    end of the fuel given to a loop that has no bound of its own. *)
Inductive Outcome (W R A : Type) : Type :=
| Done (a : A) (s : State W)
| Returned (r : R) (s : State W)
| Panic (msg : string) (s : State W)
| OutOfFuel (s : State W).
Arguments Done {W R A} a s.
Arguments Returned {W R A} r s.
Arguments Panic {W R A} msg s.
Arguments OutOfFuel {W R A} s.

Definition M (W R A : Type) : Type := State W -> Outcome W R A.

Definition ret {W R A} (a : A) : M W R A := fun s => Done a s.

Definition bind {W R A B} (m : M W R A) (k : A -> M W R B) : M W R B :=
  fun s =>
    match m s with
    | Done a s' => k a s'
    | Returned r s' => Returned r s'
    | Panic msg s' => Panic msg s'
    | OutOfFuel s' => OutOfFuel s'
    end.

Definition return_ {W R A} (r : R) : M W R A := fun s => Returned r s.
Definition panic {W R A} (msg : string) : M W R A := fun s => Panic msg s.
Definition out_of_fuel {W R A} : M W R A := fun s => OutOfFuel s.

(** The body of a function: a [return] inside it is its result. *)
Definition func {W R R'} (body : M W R R) : M W R' R :=
  fun s =>
    match body s with
    | Done r s' => Done r s'
    | Returned r s' => Done r s'
    | Panic msg s' => Panic msg s'
    | OutOfFuel s' => OutOfFuel s'
    end.

(** An interaction that changes nothing but the trace. *)
Definition emit {W R} (ev : Event) : M W R unit :=
  fun s => Done tt (mkState (world s) (trace s ++ [ev])).

(** A call of an oracle: logged, answered, and the world moved on. *)
Definition call {W R A} (ev : Event) (f : W -> A * W) : M W R A :=
  fun s =>
    let '(a, w') := f (world s) in
    Done a (mkState w' (trace s ++ [ev])).

(** [xs[i]], with Go's bounds check. *)
Definition index {W R A} (xs : list A) (i : Z) : M W R A :=
  if (i <? 0) || (Z.of_nat (List.length xs) <=? i) then panic "index out of range"
  else match nth_error xs (Z.to_nat i) with
       | Some x => ret x
       | None => panic "index out of range"
       end.

(** Reading through a pointer that may be nil. *)
Definition deref {W R A} (p : option A) : M W R A :=
  match p with
  | Some x => ret x
  | None => panic "nil pointer dereference"
  end.

Declare Scope go_scope.
Delimit Scope go_scope with go.
Notation "x <- m ;; k" := (bind m (fun x => k))
  (at level 61, m at next level, right associativity) : go_scope.
Notation "' p <- m ;; k" := (bind m (fun x => match x with p => k end))
  (at level 61, p pattern, m at next level, right associativity) : go_scope.
Notation "m ;; k" := (bind m (fun _ => k))
  (at level 61, right associativity) : go_scope.
Open Scope go_scope.

(** ** The program *)

Section Program.

Context {W Client : Type} (env : Env W Client).

(** *** Wrappers of the collaborators *)

Section Actions.
Context {R : Type}.

Definition Print (s : string) : M W R unit := emit (EvPrint s).
Definition Log (s : string) : M W R unit := emit (EvLog s).
Definition Sleep (seconds : Z) : M W R unit := emit (EvSleep seconds).
Definition SpinnerStart : M W R unit := emit EvSpinnerStart.
Definition SpinnerStop : M W R unit := emit EvSpinnerStop.

Definition do_Scanln : M W R (string * option error) :=
  call EvScanln (Scanln env).

Definition do_VerifyFactor (c : Client) (token : string) (p : VerifyFactorParams)
  : M W R (Result VerifyFactorResponse) :=
  call (EvVerifyFactor token p) (VerifyFactor env c token p).

Definition do_AssumeSAMLRole (provider role data : string) (duration : Z)
  : M W R (option Credentials * option error) :=
  call (EvAssumeSAMLRole provider role data duration)
       (AssumeSAMLRole env provider role data duration).

End Actions.

(** *** getDevice (get.go, lines 189-233) *)

(** Lines 203-205: [for i, d := range devices { fmt.Printf(...) }]. *)
Fixpoint print_devices {R} (i : Z) (devices : list Device) : M W R unit :=
  match devices with
  | [] => ret tt
  | d :: rest =>
      Print (format_int (i + 1) ++ ". " ++ format_int (DeviceId d) ++ " - "
             ++ DeviceType d ++ nl) ;;
      print_devices (i + 1) rest
  end.

(** Lines 202-228: the [for { ... }] loop, which has no bound of its own; each
    round costs one unit of fuel.  [continue] is the recursive call, [break]
    yields the selection. *)
Fixpoint getDevice_loop {R} (fuel : nat) (devices : list Device) : M W R Z :=
  match fuel with
  | O => out_of_fuel
  | S fuel' =>
      print_devices 0 devices ;;
      Print ("Please choose an MFA device to authenticate with (1-"
             ++ format_int (Z.of_nat (List.length devices)) ++ "): ") ;;
      '(input, err) <- do_Scanln ;;
      match err with
      | Some e =>
          Print ("Error reading input: " ++ e ++ nl) ;;
          getDevice_loop fuel' devices
      | None =>
          match Atoi input with
          | None =>
              Print ("Invalid input '" ++ input ++ "'" ++ nl) ;;
              getDevice_loop fuel' devices
          | Some selection =>
              if (selection <? 1) || (selection >? Z.of_nat (List.length devices))
              then Print ("Invalid MFA device selected" ++ nl) ;;
                   getDevice_loop fuel' devices
              else ret selection
          end
      end
  end.

Definition getDevice {R} (fuel : nat) (devices : list Device)
  : M W R (string * string * option error) :=
  if Nat.eqb (List.length devices) 0 then
    ret ("", "", Some "No MFA device returned by Onelogin")
  else if Nat.eqb (List.length devices) 1 then
    d <- index devices 0 ;;
    ret (format_int (DeviceId d), DeviceType d, None)
  else
    selection <- getDevice_loop fuel devices ;;
    d <- index devices (selection - 1) ;;
    ret (format_int (DeviceId d), DeviceType d, None).

(** *** Get (get.go, lines 33-184) *)

(** [if err != nil { return nil, wrap(err) }] after a call. *)
Definition try {A} (r : Result A) (wrap : error -> error) : M W GoResult A :=
  match r with
  | Ok a => ret a
  | Err e => return_ (None, Some (wrap e))
  end.

(** Lines 34-89: configuration, client, access token, user name, password and
    the SAML assertion request. *)
Definition Get_session (app provider : string)
  : M W GoResult
      (OneLoginAppConfig * Client * string * GenerateSamlAssertionResponse) :=
  r <- call (EvGetOneLoginProvider provider) (GetOneLoginProvider env provider) ;;
  p <- try r (fun e => "reading provider config: " ++ e) ;;
  r <- call (EvGetOneLoginApp app) (GetOneLoginApp env app) ;;
  a <- try r (fun e => "reading config for app " ++ app ++ ": " ++ e) ;;
  r <- call (EvNewClient (Region p)) (NewClient env (Region p)) ;;
  c <- try r (fun e => e) ;;
  SpinnerStart ;;
  r <- call (EvGenerateTokens (ClientID p) (ClientSecret p))
            (GenerateTokens env c (ClientID p) (ClientSecret p)) ;;
  SpinnerStop ;;
  token <- try r (fun e => "generating access token: " ++ e) ;;
  user <- (if (Username p =? "")%string then
             Print "OneLogin username: " ;;
             '(user, _) <- do_Scanln ;;
             ret user
           else ret (Username p)) ;;
  Print "OneLogin password: " ;;
  r <- call EvGetPasswd (GetPasswd env) ;;
  pass <- try r (fun _ => "Couldn't read password from terminal") ;;
  let pSAML := {| UsernameOrEmail := user;
                  Password := pass;
                  saml_AppId := ID a;
                  saml_Subdomain := Subdomain p |} in
  SpinnerStart ;;
  r <- call (EvGenerateSamlAssertion token pSAML)
            (GenerateSamlAssertion env c token pSAML) ;;
  SpinnerStop ;;
  rSaml <- try r (fun e => "generating SAML assertion: " ++ e) ;;
  ret (a, c, token, rSaml).

(** Lines 124-133: the polling loop.  It is bounded by [timeout], which goes
    down by [MFAInterval] in every round. *)
Equations? pushPoll (c : Client) (token : string) (pMfa : VerifyFactorParams)
    (timeout : Z) (rMfa : VerifyFactorResponse)
  : M W GoResult VerifyFactorResponse by wf (Z.to_nat timeout) lt :=
  pushPoll c token pMfa timeout rMfa
    with sumbool_of_bool ((Status_Type rMfa =? "pending")%string && (timeout >? 0)) := {
    | left _ =>
        Sleep MFAInterval ;;
        r <- do_VerifyFactor c token pMfa ;;
        match r with
        | Err e => SpinnerStop ;; return_ (None, Some e)
        | Ok rMfa' => pushPoll c token pMfa (timeout - MFAInterval) rMfa'
        end
    | right _ => ret rMfa }.
Proof.
  apply andb_prop in e. destruct e as [_ e].
  unfold MFAInterval. lia.
Qed.

(** Lines 100-140, the body of [if deviceType == MFADeviceOneLoginProtect]:
    yields [rMfa] and [pushOK]. *)
Definition Get_push (c : Client) (a : OneLoginAppConfig) (token st deviceID : string)
  : M W GoResult (VerifyFactorResponse * bool) :=
  let pushOK := true in
  let pMfa := {| AppId := ID a;
                 vf_DeviceId := deviceID;
                 vf_StateToken := st;
                 OtpToken := "";
                 DoNotNotify := false |} in
  SpinnerStart ;;
  r <- do_VerifyFactor c token pMfa ;;
  SpinnerStop ;;
  rMfa <- try r (fun e => e) ;;
  let pMfa := {| AppId := AppId pMfa;
                 vf_DeviceId := vf_DeviceId pMfa;
                 vf_StateToken := vf_StateToken pMfa;
                 OtpToken := OtpToken pMfa;
                 DoNotNotify := true |} in
  Print (Status_Message rMfa ++ nl) ;;
  let timeout := MFAPushTimeout in
  SpinnerStart ;;
  rMfa <- pushPoll c token pMfa timeout rMfa ;;
  SpinnerStop ;;
  if (Status_Type rMfa =? "pending")%string then
    Print ("MFA verification timed out - falling back to manual OTP input" ++ nl) ;;
    ret (rMfa, false)
  else ret (rMfa, pushOK).

(** Lines 142-163, the body of [if !pushOK]: yields [rMfa]. *)
Definition Get_otp (c : Client) (a : OneLoginAppConfig) (token st deviceID : string)
  : M W GoResult VerifyFactorResponse :=
  Print "Please enter the OTP from your MFA device: " ;;
  '(otp, _) <- do_Scanln ;;
  let pMfa := {| AppId := ID a;
                 vf_DeviceId := deviceID;
                 vf_StateToken := st;
                 OtpToken := otp;
                 DoNotNotify := false |} in
  SpinnerStart ;;
  r <- do_VerifyFactor c token pMfa ;;
  SpinnerStop ;;
  try r (fun e => "verifying factor: " ++ e).

(** Lines 165-183: the role binding and the exchange of the assertion for
    credentials.  The last line is [return creds, err]. *)
Definition Get_exchange (data : string) (duration : Z) : M W GoResult GoResult :=
  arn <- try (saml_Get env data) (fun e => e) ;;
  SpinnerStart ;;
  '(creds, err) <- do_AssumeSAMLRole (Provider arn) (Role arn) data duration ;;
  SpinnerStop ;;
  match err with
  | Some e =>
      if (e =? ErrDurationExceeded env)%string then
        Log (YellowString env (DurationExceededMessage env)) ;;
        SpinnerStart ;;
        '(creds, err) <- do_AssumeSAMLRole (Provider arn) (Role arn) data 3600 ;;
        SpinnerStop ;;
        ret (creds, err)
      else ret (creds, err)
  | None => ret (creds, err)
  end.

(** Lines 96-183: everything after the device has been chosen.  [rMfa] is a
    pointer that starts nil. *)
Definition Get_verify (c : Client) (a : OneLoginAppConfig) (token st : string)
    (deviceID deviceType : string) (duration : Z) : M W GoResult GoResult :=
  let rMfa : option VerifyFactorResponse := None in
  let pushOK := false in
  '(rMfa, pushOK) <-
    (if (deviceType =? MFADeviceOneLoginProtect)%string then
       '(rMfa, pushOK) <- Get_push c a token st deviceID ;;
       ret (Some rMfa, pushOK)
     else ret (rMfa, pushOK)) ;;
  rMfa <-
    (if negb pushOK then
       rMfa <- Get_otp c a token st deviceID ;;
       ret (Some rMfa)
     else ret rMfa) ;;
  rMfa <- deref rMfa ;;
  Get_exchange (Data rMfa) duration.

(** Lines 33-184.  The error of [getDevice] is assigned to [err] on line 94
    and not read before [err] is assigned again. *)
Definition Get_body (fuel : nat) (app provider : string) (duration : Z)
  : M W GoResult GoResult :=
  '(a, c, token, rSaml) <- Get_session app provider ;;
  d0 <- index (saml_Data rSaml) 0 ;;
  let st := StateToken d0 in
  let devices := Devices d0 in
  '(deviceID, deviceType, err) <- getDevice fuel devices ;;
  Get_verify c a token st deviceID deviceType duration.

Definition Get (fuel : nat) (app provider : string) (duration : Z)
  : M W GoResult GoResult :=
  func (Get_body fuel app provider duration).

End Program.

(** ** Vocabulary of the statements

    What the terminal shows, what the oracles answer along a run, and what a
    trace records; none of it is part of the program. *)

Section Observables.

Context {W Client : Type} (env : Env W Client).

(** The state reached from [s] when the world has become [w] and the events
    [evs] have happened. *)
Definition extend (s : State W) (w : W) (evs : list Event) : State W :=
  mkState w (trace s ++ evs).

(** *** The terminal during device selection *)

Definition menu_line (pos : Z) (d : Device) : Event :=
  EvPrint (format_int pos ++ ". " ++ format_int (DeviceId d) ++ " - "
           ++ DeviceType d ++ nl).

(** The devices, numbered from 1. *)
Definition enumeration (devices : list Device) : list Event :=
  map (fun '(i, d) => menu_line (Z.of_nat i) d)
      (combine (seq 1 (List.length devices)) devices).

Definition prompt (devices : list Device) : Event :=
  EvPrint ("Please choose an MFA device to authenticate with (1-"
           ++ format_int (Z.of_nat (List.length devices)) ++ "): ").

(** A line read without error that is an integer between 1 and the number of
    devices. *)
Definition valid_selection (devices : list Device) (line : string * option error)
    (v : Z) : Prop :=
  snd line = None /\ Atoi (fst line) = Some v /\
  1 <= v <= Z.of_nat (List.length devices).

Definition invalid_input (devices : list Device) (line : string * option error)
  : Prop :=
  forall v, ~ valid_selection devices line v.

(** What the user is told about a line that is not a valid selection. *)
Definition complaint (line : string * option error) : Event :=
  match snd line with
  | Some e => EvPrint ("Error reading input: " ++ e ++ nl)
  | None =>
      match Atoi (fst line) with
      | None => EvPrint ("Invalid input '" ++ fst line ++ "'" ++ nl)
      | Some _ => EvPrint ("Invalid MFA device selected" ++ nl)
      end
  end.

(** The world after [n] lines have been read from [w], and the [n]-th line
    (counted from 0). *)
Fixpoint after_reads (n : nat) (w : W) : W :=
  match n with
  | O => w
  | S n' => after_reads n' (snd (Scanln env w))
  end.

Definition read_at (n : nat) (w : W) : string * option error :=
  fst (Scanln env (after_reads n w)).

(** The terminal dialogue of [n] rejected lines followed by an accepted one:
    every round shows the enumeration and the prompt and reads a line. *)
Fixpoint selection_dialogue (devices : list Device) (n : nat) (w : W) : list Event :=
  enumeration devices ++ [prompt devices; EvScanln] ++
  match n with
  | O => []
  | S n' =>
      complaint (fst (Scanln env w))
      :: selection_dialogue devices n' (snd (Scanln env w))
  end.

(** *** The verify-factor calls of the push phase *)

(** The parameters of the push phase: the initial call has [doNotNotify]
    false, the polls have it true. *)
Definition push_params (a : OneLoginAppConfig) (st deviceID : string)
    (doNotNotify : bool) : VerifyFactorParams :=
  {| AppId := ID a;
     vf_DeviceId := deviceID;
     vf_StateToken := st;
     OtpToken := "";
     DoNotNotify := doNotNotify |}.

Definition otp_params (a : OneLoginAppConfig) (st deviceID otp : string)
  : VerifyFactorParams :=
  {| AppId := ID a;
     vf_DeviceId := deviceID;
     vf_StateToken := st;
     OtpToken := otp;
     DoNotNotify := false |}.

(** The world after [k] calls with the same parameters. *)
Fixpoint after_polls (c : Client) (token : string) (p : VerifyFactorParams)
    (k : nat) (w : W) : W :=
  match k with
  | O => w
  | S k' => after_polls c token p k' (snd (VerifyFactor env c token p w))
  end.

(** The answer to poll [i] (counted from 0) of a loop that starts polling in
    [w]. *)
Definition poll_answer (c : Client) (token : string) (p : VerifyFactorParams)
    (i : nat) (w : W) : Result VerifyFactorResponse :=
  fst (VerifyFactor env c token p (after_polls c token p i w)).

(** Call number 0 is the initial call, with parameters [p0]; call number
    [i > 0] is the [i]-th poll, with parameters [p1].  [world_before] is the
    world in which call [i] is made, [answer] what it returns. *)
Definition world_before (c : Client) (token : string) (p0 p1 : VerifyFactorParams)
    (i : nat) (w : W) : W :=
  match i with
  | O => w
  | S j => after_polls c token p1 j (snd (VerifyFactor env c token p0 w))
  end.

Definition answer (c : Client) (token : string) (p0 p1 : VerifyFactorParams)
    (i : nat) (w : W) : Result VerifyFactorResponse :=
  fst (VerifyFactor env c token (match i with O => p0 | S _ => p1 end)
         (world_before c token p0 p1 i w)).

Definition has_status (ty : string) (r : Result VerifyFactorResponse) : bool :=
  match r with
  | Ok rMfa => (Status_Type rMfa =? ty)%string
  | Err _ => false
  end.

(** The events of the push phase up to the start of polling, and those of
    [k] polls. *)
Definition push_opening (token : string) (p0 : VerifyFactorParams) (message : string)
  : list Event :=
  [EvSpinnerStart; EvVerifyFactor token p0; EvSpinnerStop;
   EvPrint (message ++ nl); EvSpinnerStart].

Fixpoint polls (token : string) (p1 : VerifyFactorParams) (k : nat) : list Event :=
  match k with
  | O => []
  | S k' => EvSleep MFAInterval :: EvVerifyFactor token p1 :: polls token p1 k'
  end.

Definition timeout_notice : Event :=
  EvPrint ("MFA verification timed out - falling back to manual OTP input" ++ nl).

Definition otp_prompt : Event :=
  EvPrint "Please enter the OTP from your MFA device: ".

(** *** Reading a trace *)

Definition verify_factor_calls (t : list Event) : list (string * VerifyFactorParams) :=
  flat_map (fun ev => match ev with
                      | EvVerifyFactor token p => [(token, p)]
                      | _ => []
                      end) t.

(** The durations of the role-assumption attempts. *)
Definition assume_role_calls (t : list Event) : list Z :=
  flat_map (fun ev => match ev with
                      | EvAssumeSAMLRole _ _ _ duration => [duration]
                      | _ => []
                      end) t.

Definition sleeps (t : list Event) : list Z :=
  flat_map (fun ev => match ev with EvSleep n => [n] | _ => [] end) t.

Definition reads (t : list Event) : nat :=
  List.length (filter (fun ev => match ev with EvScanln => true | _ => false end) t).

Definition is_panic {R A} (o : Outcome W R A) : bool :=
  match o with Panic _ _ => true | _ => false end.

(** The value a block ends with, and the trace it leaves, if it ends
    normally. *)
Definition value_of {R A} (o : Outcome W R A) : option A :=
  match o with Done a _ => Some a | _ => None end.

Definition trace_of {R A} (o : Outcome W R A) : list Event :=
  match o with
  | Done _ s | Returned _ s | Panic _ s | OutOfFuel s => trace s
  end.

Definition passwords (t : list Event) : nat :=
  List.length (filter (fun ev => match ev with EvGetPasswd => true | _ => false end) t).

Definition saml_request_params (t : list Event)
  : list (string * GenerateSamlAssertionParams) :=
  flat_map (fun ev => match ev with
                      | EvGenerateSamlAssertion token p => [(token, p)]
                      | _ => []
                      end) t.


(** *** The spinner along a trace *)

(** [spinner spinning t] follows the busy indicator through the events [t],
    starting from the state [spinning].  It fails when the indicator is
    started while it runs or stopped while it does not, and when something
    is printed, logged or read from the terminal while it runs; otherwise it
    yields the state the indicator is left in. *)
Fixpoint spinner (spinning : bool) (t : list Event) : option bool :=
  match t with
  | [] => Some spinning
  | EvSpinnerStart :: t' => if spinning then None else spinner true t'
  | EvSpinnerStop :: t' => if spinning then spinner false t' else None
  | (EvPrint _ | EvLog _ | EvScanln | EvGetPasswd) :: t' =>
      if spinning then None else spinner false t'
  | _ :: t' => spinner spinning t'
  end.

(** A block keeps the discipline of the spinner: started with the indicator
    in state [pre], it adds events that [spinner] accepts, and leaves the
    indicator in state [post] when it ends normally and stopped when it ends
    in any other way. *)
Definition tracks {R A} (m : M W R A) (pre post : bool) : Prop :=
  forall s : State W,
    exists evs,
      trace_of (m s) = (trace s ++ evs)%list /\
      spinner pre evs =
        Some (match m s with Done _ _ => post | _ => false end).

(** *** Where a result comes from *)

(** [rMfa] is what some verify-factor call made with [c] and [token]
    answered, without error. *)
Definition answered (c : Client) (token : string) (rMfa : VerifyFactorResponse)
  : Prop :=
  exists p w, fst (VerifyFactor env c token p w) = Ok rMfa.

(** [r] is what a role-assumption attempt answered, made for the role binding
    read from [data], with that payload and the duration [d]. *)
Definition assumed (data : string) (d : Z) (r : GoResult) : Prop :=
  exists arn w,
    saml_Get env data = Ok arn /\
    r = fst (AssumeSAMLRole env (Provider arn) (Role arn) data d w).

(** The verify-factor calls of one flow are made with one token, for one
    application, one device and one state token. *)
Definition same_challenge (token : string) (a : OneLoginAppConfig)
    (st deviceID : string) (call : string * VerifyFactorParams) : Prop :=
  fst call = token /\ AppId (snd call) = ID a /\
  vf_DeviceId (snd call) = deviceID /\ vf_StateToken (snd call) = st.

(** *** The answers of one run

    The predicates below follow the calls of one run from the world it
    starts in: each oracle is asked in the world the previous one left. *)

(** The session stage has read the provider configuration [p]. *)
Definition at_app (provider : string) (w0 : W) (p : OneLoginProviderConfig)
    (w1 : W) : Prop :=
  GetOneLoginProvider env provider w0 = (Ok p, w1).

(** ... and then the application configuration [a]. *)
Definition at_client (provider app : string) (w0 : W)
    (p : OneLoginProviderConfig) (a : OneLoginAppConfig) (w2 : W) : Prop :=
  exists w1, at_app provider w0 p w1 /\ GetOneLoginApp env app w1 = (Ok a, w2).

(** ... and then made the client [c] for the region of [p]. *)
Definition at_token (provider app : string) (w0 : W)
    (p : OneLoginProviderConfig) (a : OneLoginAppConfig) (c : Client) (w3 : W)
  : Prop :=
  exists w2, at_client provider app w0 p a w2 /\
             NewClient env (Region p) w2 = (Ok c, w3).

(** ... and then generated the access token [token]. *)
Definition at_user (provider app : string) (w0 : W)
    (p : OneLoginProviderConfig) (a : OneLoginAppConfig) (c : Client)
    (token : string) (w4 : W) : Prop :=
  exists w3, at_token provider app w0 p a c w3 /\
             GenerateTokens env c (ClientID p) (ClientSecret p) w3 = (Ok token, w4).

(** Lines 61-66 in the world [w4]: the user name is the configured one, and
    nothing is shown or read; or none is configured, and it is the line read
    from the terminal after the prompt. *)
Definition user_step (p : OneLoginProviderConfig) (w4 : W) (user : string)
    (w5 : W) (evs : list Event) : Prop :=
  (Username p <> "" /\ user = Username p /\ w5 = w4 /\ evs = []) \/
  (Username p = "" /\
   exists err, Scanln env w4 = ((user, err), w5) /\
               evs = [EvPrint "OneLogin username: "; EvScanln]).

(** ... and then settled the user name. *)
Definition at_password (provider app : string) (w0 : W)
    (p : OneLoginProviderConfig) (a : OneLoginAppConfig) (c : Client)
    (token user : string) (w5 : W) (uevs : list Event) : Prop :=
  exists w4, at_user provider app w0 p a c token w4 /\
             user_step p w4 user w5 uevs.

(** The events of the session stage up to the access token. *)
Definition session_opening (provider app : string) (p : OneLoginProviderConfig)
  : list Event :=
  [EvGetOneLoginProvider provider; EvGetOneLoginApp app; EvNewClient (Region p);
   EvSpinnerStart; EvGenerateTokens (ClientID p) (ClientSecret p); EvSpinnerStop].

(** The parameters of the assertion request (lines 75-82). *)
Definition saml_params (p : OneLoginProviderConfig) (a : OneLoginAppConfig)
    (user pass : string) : GenerateSamlAssertionParams :=
  {| UsernameOrEmail := user;
     Password := pass;
     saml_AppId := ID a;
     saml_Subdomain := Subdomain p |}.

(** The events of the password read and of the assertion request. *)
Definition password_read : list Event :=
  [EvPrint "OneLogin password: "; EvGetPasswd].

Definition assertion_request (token : string) (pSAML : GenerateSamlAssertionParams)
  : list Event :=
  [EvSpinnerStart; EvGenerateSamlAssertion token pSAML; EvSpinnerStop].



(** What a stretch of events costs at most: [nv] verify-factor calls, all
    for the same challenge, [ns] pauses, each of [MFAInterval] seconds, [nr]
    lines read from the terminal and [na] role-assumption attempts. *)
Definition within (token : string) (a : OneLoginAppConfig) (st deviceID : string)
    (nv ns nr na : nat) (evs : list Event) : Prop :=
  (List.length (verify_factor_calls evs) <= nv)%nat /\
  Forall (same_challenge token a st deviceID) (verify_factor_calls evs) /\
  (List.length (sleeps evs) <= ns)%nat /\
  Forall (eq MFAInterval) (sleeps evs) /\
  (reads evs <= nr)%nat /\
  (List.length (assume_role_calls evs) <= na)%nat.

End Observables.

(** ** A scripted world

    A test double for the collaborators: the answers of every oracle are
    given in advance, and an oracle that is asked more often than the script
    provides for reports an error. *)

Module Mock.

Record World := {
  provider_cfg : Result OneLoginProviderConfig;
  app_cfg : Result OneLoginAppConfig;
  client : Result unit;
  access_token : Result string;
  lines : list (string * option error);
  passwd : Result string;
  assertion : Result GenerateSamlAssertionResponse;
  factors : list (Result VerifyFactorResponse);
  roles : list (option Credentials * option error)
}.

Definition set_lines (w : World) (l : list (string * option error)) : World :=
  {| provider_cfg := provider_cfg w; app_cfg := app_cfg w; client := client w;
     access_token := access_token w; lines := l; passwd := passwd w;
     assertion := assertion w; factors := factors w; roles := roles w |}.

Definition set_factors (w : World) (l : list (Result VerifyFactorResponse)) : World :=
  {| provider_cfg := provider_cfg w; app_cfg := app_cfg w; client := client w;
     access_token := access_token w; lines := lines w; passwd := passwd w;
     assertion := assertion w; factors := l; roles := roles w |}.

Definition set_roles (w : World) (l : list (option Credentials * option error))
  : World :=
  {| provider_cfg := provider_cfg w; app_cfg := app_cfg w; client := client w;
     access_token := access_token w; lines := lines w; passwd := passwd w;
     assertion := assertion w; factors := factors w; roles := l |}.

Definition arn0 : ARN :=
  {| Provider := "arn:aws:iam::111111111111:saml-provider/Idp";
     Role := "arn:aws:iam::111111111111:role/MyRole" |}.

Definition env : Env World unit := {|
  GetOneLoginProvider := fun _ w => (provider_cfg w, w);
  GetOneLoginApp := fun _ w => (app_cfg w, w);
  NewClient := fun _ w => (client w, w);
  GenerateTokens := fun _ _ _ w => (access_token w, w);
  Scanln := fun w =>
    match lines w with
    | [] => (("", Some "EOF"), w)
    | l :: rest => (l, set_lines w rest)
    end;
  GetPasswd := fun w => (passwd w, w);
  GenerateSamlAssertion := fun _ _ _ w => (assertion w, w);
  VerifyFactor := fun _ _ _ w =>
    match factors w with
    | [] => (Err "EOF", w)
    | r :: rest => (r, set_factors w rest)
    end;
  saml_Get := fun data =>
    if (data =? "")%string then Err "no role binding in the assertion" else Ok arn0;
  AssumeSAMLRole := fun _ _ _ _ w =>
    match roles w with
    | [] => ((None, Some "EOF"), w)
    | r :: rest => (r, set_roles w rest)
    end;
  ErrDurationExceeded := "DurationExceeded";
  DurationExceededMessage := "The requested duration exceeds the maximum of the role";
  YellowString := fun s => s
|}.

Definition provider0 : OneLoginProviderConfig :=
  {| ClientID := "id"; ClientSecret := "secret"; Subdomain := "corp";
     Username := "alice"; Region := "US" |}.

Definition creds0 : Credentials :=
  {| AccessKeyID := "AKIA"; SecretAccessKey := "sk"; SessionToken := "tok";
     Expiration := 1700003600 |}.

Definition creds1 : Credentials :=
  {| AccessKeyID := "AKIB"; SecretAccessKey := "sk1"; SessionToken := "tok1";
     Expiration := 1700003601 |}.

Definition response (ty data : string) : VerifyFactorResponse :=
  {| Status_Type := ty; Status_Message := "msg"; Data := data |}.

(** A world in which the session stage succeeds and the assertion response
    carries [data]. *)
Definition world0 (data : list SamlData) (ls : list (string * option error))
    (fs : list (Result VerifyFactorResponse))
    (rs : list (option Credentials * option error)) : World :=
  {| provider_cfg := Ok provider0;
     app_cfg := Ok {| ID := "app" |};
     client := Ok tt;
     access_token := Ok "T";
     lines := ls;
     passwd := Ok "pw";
     assertion := Ok {| saml_Data := data |};
     factors := fs;
     roles := rs |}.

Definition start (w : World) : State World := mkState w [].

Definition protect : Device := {| DeviceId := 7; DeviceType := "OneLogin Protect" |}.
Definition yubikey : Device := {| DeviceId := 12; DeviceType := "Yubico YubiKey" |}.

End Mock.

(** ** Running the monad *)

Section Running.

Context {W R : Type}.

Lemma bind_Done {A B} (m : M W R A) (k : A -> M W R B) s a s' :
  m s = Done a s' -> bind m k s = k a s'.
Proof. intros H. unfold bind. rewrite H. reflexivity. Qed.

Lemma bind_Returned {A B} (m : M W R A) (k : A -> M W R B) s r s' :
  m s = Returned r s' -> bind m k s = Returned r s'.
Proof. intros H. unfold bind. rewrite H. reflexivity. Qed.

Lemma bind_OutOfFuel {A B} (m : M W R A) (k : A -> M W R B) s s' :
  m s = OutOfFuel s' -> bind m k s = OutOfFuel s'.
Proof. intros H. unfold bind. rewrite H. reflexivity. Qed.

Lemma extend_nil (s : State W) : extend s (world s) [] = s.
Proof. destruct s. unfold extend. simpl. rewrite app_nil_r. reflexivity. Qed.

Lemma extend_extend (s : State W) w evs w' evs' :
  extend (extend s w evs) w' evs' = extend s w' (evs ++ evs').
Proof. unfold extend. simpl. rewrite app_assoc. reflexivity. Qed.

Lemma world_extend (s : State W) w evs : world (extend s w evs) = w.
Proof. reflexivity. Qed.

Lemma trace_extend (s : State W) w evs :
  trace (extend s w evs) = (trace s ++ evs)%list.
Proof. reflexivity. Qed.

Lemma emit_run ev (s : State W) :
  emit (R := R) ev s = Done tt (extend s (world s) [ev]).
Proof. reflexivity. Qed.

Lemma call_run {A} ev (f : W -> A * W) (s : State W) :
  call (R := R) ev f s = Done (fst (f (world s))) (extend s (snd (f (world s))) [ev]).
Proof. unfold call. destruct (f (world s)). reflexivity. Qed.

Lemma index_in_range {A} (xs : list A) (i : nat) (x : A) (s : State W) :
  nth_error xs i = Some x -> index (R := R) xs (Z.of_nat i) s = Done x s.
Proof.
  intros H. unfold index.
  assert (Hlt : (i < List.length xs)%nat) by (apply nth_error_Some; congruence).
  destruct (Z.ltb_spec (Z.of_nat i) 0); [lia |].
  destruct (Z.leb_spec (Z.of_nat (List.length xs)) (Z.of_nat i)); [lia |].
  simpl. rewrite Nat2Z.id, H. reflexivity.
Qed.

End Running.

(** Normal form of a state built by several steps. *)
Ltac flatten_state :=
  repeat (rewrite extend_extend || rewrite world_extend);
  rewrite <- ?app_assoc; cbn [app].

(** ** Device selection *)

Section DeviceSelection.

Context {W Client : Type} (env : Env W Client).

Lemma print_devices_run {R} (devices : list Device) (n : nat) (s : State W) :
  print_devices (R := R) (Z.of_nat n) devices s =
  Done tt (extend s (world s)
             (map (fun '(i, d) => menu_line (Z.of_nat i) d)
                  (combine (seq (S n) (List.length devices)) devices))).
Proof.
  revert n s. induction devices as [| d rest IH]; intros n s.
  - simpl. rewrite extend_nil. reflexivity.
  - cbn [print_devices]. unfold Print.
    erewrite bind_Done by apply emit_run.
    replace (Z.of_nat n + 1) with (Z.of_nat (S n)) by lia.
    rewrite IH. rewrite extend_extend. reflexivity.
Qed.

Lemma print_devices_enumeration {R} (devices : list Device) (s : State W) :
  print_devices (R := R) 0 devices s =
  Done tt (extend s (world s) (enumeration devices)).
Proof. apply (print_devices_run devices 0 s). Qed.

(** One round of the loop that reads a line which is not acceptable goes
    round again. *)
Lemma getDevice_loop_reject {R} fuel devices (s : State W) :
  invalid_input devices (fst (Scanln env (world s))) ->
  getDevice_loop (R := R) env (S fuel) devices s =
  getDevice_loop env fuel devices
    (extend s (snd (Scanln env (world s)))
       (enumeration devices ++
        [prompt devices; EvScanln; complaint (fst (Scanln env (world s)))])).
Proof.
  intros Hbad. cbn [getDevice_loop].
  erewrite bind_Done by apply print_devices_enumeration.
  unfold Print at 1. erewrite bind_Done by apply emit_run.
  unfold do_Scanln. erewrite bind_Done by apply call_run.
  unfold invalid_input, valid_selection, complaint in *.
  flatten_state.
  destruct (Scanln env (world s)) as [[input err] w']. cbn [fst snd] in *.
  destruct err as [e |]; cbv beta iota.
  - unfold Print. erewrite bind_Done by apply emit_run.
    flatten_state. reflexivity.
  - destruct (Atoi input) as [v |] eqn:Hv; cbv beta iota.
    + destruct (Z.ltb_spec v 1) as [Hlo | Hlo]; cbn [orb].
      * unfold Print. erewrite bind_Done by apply emit_run.
        flatten_state. reflexivity.
      * destruct (Z.gtb_spec v (Z.of_nat (List.length devices))) as [Hhi | Hhi].
        -- unfold Print. erewrite bind_Done by apply emit_run.
           flatten_state. reflexivity.
        -- exfalso. apply (Hbad v). repeat split; try reflexivity; lia.
    + unfold Print. erewrite bind_Done by apply emit_run.
      flatten_state. reflexivity.
Qed.

(** One round that reads a valid selection leaves the loop with it. *)
Lemma getDevice_loop_accept {R} fuel devices (s : State W) v :
  valid_selection devices (fst (Scanln env (world s))) v ->
  getDevice_loop (R := R) env (S fuel) devices s =
  Done v (extend s (snd (Scanln env (world s)))
            (enumeration devices ++ [prompt devices; EvScanln])).
Proof.
  intros (Herr & Hv & Hlo & Hhi). cbn [getDevice_loop].
  erewrite bind_Done by apply print_devices_enumeration.
  unfold Print at 1. erewrite bind_Done by apply emit_run.
  unfold do_Scanln. erewrite bind_Done by apply call_run.
  flatten_state.
  destruct (Scanln env (world s)) as [[input err] w']. cbn [fst snd] in *.
  subst err. cbv beta iota. rewrite Hv.
  destruct (Z.ltb_spec v 1); [lia |].
  destruct (Z.gtb_spec v (Z.of_nat (List.length devices))); [lia |].
  reflexivity.
Qed.

Lemma selection_dec devices (line : string * option error) :
  {v | valid_selection devices line v} + {invalid_input devices line}.
Proof.
  unfold invalid_input, valid_selection.
  destruct line as [input [e |]]; cbn [fst snd].
  - right. intros v (H & _). discriminate.
  - destruct (Atoi input) as [v |].
    + destruct (Z_le_dec 1 v); [| right; intros v' (_ & H & ?); inversion H; lia].
      destruct (Z_le_dec v (Z.of_nat (List.length devices)));
        [| right; intros v' (_ & H & ?); inversion H; lia].
      left. exists v. auto.
    + right. intros v (_ & H & _). discriminate.
Defined.

(** [n] rejected lines and then a valid one: with more than [n] units of fuel
    the loop ends with the selection after the dialogue of [n + 1] rounds. *)
Lemma getDevice_loop_run {R} devices (n : nat) :
  forall (fuel : nat) (s : State W) (v : Z),
    (n < fuel)%nat ->
    (forall i, (i < n)%nat -> invalid_input devices (read_at env i (world s))) ->
    valid_selection devices (read_at env n (world s)) v ->
    getDevice_loop (R := R) env fuel devices s =
    Done v (extend s (after_reads env (S n) (world s))
              (selection_dialogue env devices n (world s))).
Proof.
  induction n as [| n IH]; intros fuel s v Hfuel Hbad Hok;
    (destruct fuel as [| fuel]; [lia |]).
  - rewrite (getDevice_loop_accept fuel devices s v Hok).
    cbn [selection_dialogue after_reads]. rewrite app_nil_r. reflexivity.
  - rewrite getDevice_loop_reject by (apply (Hbad 0%nat); lia).
    rewrite (IH fuel _ v).
    + flatten_state. reflexivity.
    + lia.
    + intros i Hi. rewrite world_extend. apply (Hbad (S i)). lia.
    + rewrite world_extend. exact Hok.
Qed.

(** Whatever the fuel and the world, the loop neither returns from the
    enclosing function nor panics; it yields a selection only after a valid
    line, and it runs out of fuel only on rejected lines. *)
Lemma getDevice_loop_inv {R} devices (fuel : nat) :
  forall s : State W,
    match getDevice_loop (R := R) env fuel devices s with
    | Done v s' =>
        exists n, (n < fuel)%nat /\
          (forall i, (i < n)%nat -> invalid_input devices (read_at env i (world s))) /\
          valid_selection devices (read_at env n (world s)) v /\
          s' = extend s (after_reads env (S n) (world s))
                 (selection_dialogue env devices n (world s))
    | OutOfFuel _ =>
        forall i, (i < fuel)%nat -> invalid_input devices (read_at env i (world s))
    | Returned _ _ | Panic _ _ => False
    end.
Proof.
  induction fuel as [| fuel IH]; intros s.
  - simpl. intros i Hi. lia.
  - destruct (selection_dec devices (fst (Scanln env (world s)))) as [[v Hv] | Hbad].
    + rewrite (getDevice_loop_accept fuel devices s v Hv).
      exists 0%nat. split; [lia |]. split; [intros i Hi; lia |].
      split; [exact Hv |].
      cbn [selection_dialogue after_reads]. rewrite app_nil_r. reflexivity.
    + rewrite (getDevice_loop_reject fuel devices s Hbad).
      specialize (IH (extend s (snd (Scanln env (world s)))
                        (enumeration devices ++
                         [prompt devices; EvScanln;
                          complaint (fst (Scanln env (world s)))]))).
      rewrite world_extend in IH.
      destruct (getDevice_loop env fuel devices _) as [v s' | | |]; try exact IH.
      * destruct IH as (n & Hn & Hi & Hv & Hs).
        exists (S n). split; [lia |]. split; [| split; [exact Hv |]].
        -- intros [| i] Hlt; [exact Hbad | apply Hi; lia].
        -- rewrite Hs. flatten_state. reflexivity.
      * intros [| i] Hlt; [exact Hbad | apply IH; lia].
Qed.

Lemma valid_selection_device devices line v :
  valid_selection devices line v ->
  exists d, nth_error devices (Z.to_nat (v - 1)) = Some d.
Proof.
  intros (_ & _ & Hlo & Hhi).
  destruct (nth_error devices (Z.to_nat (v - 1))) as [d |] eqn:Hd; [eauto |].
  apply nth_error_None in Hd. lia.
Qed.

Lemma getDevice_many {R} devices fuel (s : State W) :
  (2 <= List.length devices)%nat ->
  getDevice (R := R) env fuel devices s =
  (selection <- getDevice_loop env fuel devices ;;
   d <- index devices (selection - 1) ;;
   ret (format_int (DeviceId d), DeviceType d, None)) s.
Proof.
  intros Hlen. unfold getDevice.
  destruct devices as [| d1 [| d2 rest]]; simpl in Hlen; try lia.
  reflexivity.
Qed.

(** C9.  A device set of exactly one device: [getDevice] returns the id and
    the type of that device with a nil error, and nothing is printed or read
    (the state is the one it started in). *)
Theorem getDevice_single {R} (fuel : nat) (d : Device) (s : State W) :
  getDevice (R := R) env fuel [d] s =
  Done (format_int (DeviceId d), DeviceType d, None) s.
Proof. reflexivity. Qed.

(** C8.  A device set of at least two devices.  (1) If the first [n] lines
    read are rejected (a read error, not an integer, or out of range) and line
    [n] is an integer [v] between 1 and the number of devices, [getDevice]
    returns the id and type of the device at the 1-based position [v], with a
    nil error, after [n + 1] rounds each showing the enumeration numbered from
    1 and the prompt.  (2) Whenever [getDevice] returns, such a valid line was
    read after rejected ones only.  (3) It never leaves the flow by a
    [return] of the caller or a panic. *)
Theorem getDevice_selection {R} (devices : list Device) (fuel : nat) (s : State W) :
  (2 <= List.length devices)%nat ->
  (forall n v,
      (n < fuel)%nat ->
      (forall i, (i < n)%nat -> invalid_input devices (read_at env i (world s))) ->
      valid_selection devices (read_at env n (world s)) v ->
      exists d,
        nth_error devices (Z.to_nat (v - 1)) = Some d /\
        getDevice (R := R) env fuel devices s =
        Done (format_int (DeviceId d), DeviceType d, None)
             (extend s (after_reads env (S n) (world s))
                (selection_dialogue env devices n (world s)))) /\
  (forall r s',
      getDevice (R := R) env fuel devices s = Done r s' ->
      exists n v d,
        (n < fuel)%nat /\
        (forall i, (i < n)%nat -> invalid_input devices (read_at env i (world s))) /\
        valid_selection devices (read_at env n (world s)) v /\
        nth_error devices (Z.to_nat (v - 1)) = Some d /\
        r = (format_int (DeviceId d), DeviceType d, None) /\
        s' = extend s (after_reads env (S n) (world s))
               (selection_dialogue env devices n (world s))) /\
  (forall r s', getDevice (R := R) env fuel devices s <> Returned r s') /\
  (forall msg s', getDevice (R := R) env fuel devices s <> Panic msg s').
Proof.
  intros Hlen.
  assert (Hrun : forall n v,
             (n < fuel)%nat ->
             (forall i, (i < n)%nat ->
                        invalid_input devices (read_at env i (world s))) ->
             valid_selection devices (read_at env n (world s)) v ->
             exists d,
               nth_error devices (Z.to_nat (v - 1)) = Some d /\
               getDevice (R := R) env fuel devices s =
               Done (format_int (DeviceId d), DeviceType d, None)
                    (extend s (after_reads env (S n) (world s))
                       (selection_dialogue env devices n (world s)))).
  { intros n v Hn Hbad Hok.
    destruct (valid_selection_device _ _ _ Hok) as [d Hd].
    exists d. split; [exact Hd |].
    rewrite getDevice_many by exact Hlen.
    erewrite bind_Done by (apply getDevice_loop_run; eassumption).
    replace (v - 1) with (Z.of_nat (Z.to_nat (v - 1)))
      by (destruct Hok as (_ & _ & ? & _); lia).
    erewrite bind_Done by (apply index_in_range; exact Hd).
    reflexivity. }
  split; [exact Hrun |].
  pose proof (getDevice_loop_inv (R := R) devices fuel s) as Hinv.
  destruct (getDevice_loop env fuel devices s) as [v s1 | | | s1] eqn:Hloop;
    try contradiction.
  - destruct Hinv as (n & Hn & Hbad & Hok & Hs).
    destruct (Hrun n v Hn Hbad Hok) as (d & Hd & Hget).
    rewrite Hget.
    split; [| split; intros; discriminate].
    intros r s' Heq. inversion Heq; subst.
    exists n, v, d. auto 10.
  - assert (Hget : getDevice (R := R) env fuel devices s = OutOfFuel s1).
    { rewrite getDevice_many by exact Hlen. apply bind_OutOfFuel. exact Hloop. }
    rewrite Hget. repeat split; intros; discriminate.
Qed.

End DeviceSelection.

(** ** Facts about traces *)

Section TraceFacts.

Variable token : string.

Lemma polls_snoc (p : VerifyFactorParams) (k : nat) :
  (polls token p k ++ [EvSleep MFAInterval; EvVerifyFactor token p])%list =
  polls token p (S k).
Proof.
  induction k as [| k IH]; [reflexivity |].
  simpl in *. rewrite IH. reflexivity.
Qed.

Lemma verify_factor_calls_app (t u : list Event) :
  verify_factor_calls (t ++ u) = (verify_factor_calls t ++ verify_factor_calls u)%list.
Proof. apply flat_map_app. Qed.

Lemma verify_factor_calls_polls (p : VerifyFactorParams) (k : nat) :
  verify_factor_calls (polls token p k) = repeat (token, p) k.
Proof.
  induction k as [| k IH]; [reflexivity |].
  cbn [polls repeat]. cbn [verify_factor_calls flat_map app].
  fold (verify_factor_calls (polls token p k)). rewrite IH. reflexivity.
Qed.

Lemma sleeps_app (t u : list Event) : sleeps (t ++ u) = (sleeps t ++ sleeps u)%list.
Proof. apply flat_map_app. Qed.

Lemma sleeps_polls (p : VerifyFactorParams) (k : nat) :
  sleeps (polls token p k) = repeat MFAInterval k.
Proof.
  induction k as [| k IH]; [reflexivity |].
  cbn [polls repeat]. cbn [sleeps flat_map app].
  fold (sleeps (polls token p k)). rewrite IH. reflexivity.
Qed.

Lemma reads_app (t u : list Event) : reads (t ++ u) = (reads t + reads u)%nat.
Proof. unfold reads. rewrite filter_app, length_app. reflexivity. Qed.

Lemma reads_polls (p : VerifyFactorParams) (k : nat) : reads (polls token p k) = 0%nat.
Proof. induction k as [| k IH]; [reflexivity | exact IH]. Qed.

End TraceFacts.

(** ** MFA verification: the push phase *)

Section PushPhase.

Context {W Client : Type} (env : Env W Client).
Variables (c : Client) (token : string) (p : VerifyFactorParams).

(** The loop, one round unfolded. *)
Lemma pushPoll_round (timeout : Z) (rMfa : VerifyFactorResponse) :
  pushPoll env c token p timeout rMfa =
  if (Status_Type rMfa =? "pending")%string && (timeout >? 0) then
    Sleep MFAInterval ;;
    r <- do_VerifyFactor env c token p ;;
    match r with
    | Err e => SpinnerStop ;; return_ (None, Some e)
    | Ok rMfa' => pushPoll env c token p (timeout - MFAInterval) rMfa'
    end
  else ret rMfa.
Proof.
  rewrite pushPoll_equation_1.
  destruct (sumbool_of_bool _) as [H | H];
    unfold pushPoll_unfold_clause_1; rewrite H; reflexivity.
Qed.

Lemma after_polls_S (k : nat) (w : W) :
  after_polls env c token p (S k) w =
  snd (VerifyFactor env c token p (after_polls env c token p k w)).
Proof.
  revert w. induction k as [| k IH]; intros w; [reflexivity |].
  change (after_polls env c token p (S (S k)) w)
    with (after_polls env c token p (S k) (snd (VerifyFactor env c token p w))).
  rewrite IH. reflexivity.
Qed.

Lemma has_status_Ok ty r :
  has_status ty r = true -> exists rMfa, r = Ok rMfa /\ Status_Type rMfa = ty.
Proof.
  destruct r as [rMfa | e]; simpl; [| discriminate].
  intros H. apply String.eqb_eq in H. eauto.
Qed.

Lemma pushPoll_settled timeout rMfa (s : State W) :
  Status_Type rMfa <> "pending" ->
  pushPoll env c token p timeout rMfa s = Done rMfa s.
Proof.
  intros H. rewrite pushPoll_round.
  apply String.eqb_neq in H. rewrite H. reflexivity.
Qed.

Lemma pushPoll_exhausted timeout rMfa (s : State W) :
  timeout <= 0 ->
  pushPoll env c token p timeout rMfa s = Done rMfa s.
Proof.
  intros H. rewrite pushPoll_round.
  destruct (Z.gtb_spec timeout 0); [lia |].
  rewrite andb_false_r. reflexivity.
Qed.

Lemma pushPoll_step_ok timeout rMfa rMfa' (s : State W) :
  Status_Type rMfa = "pending" -> 0 < timeout ->
  fst (VerifyFactor env c token p (world s)) = Ok rMfa' ->
  pushPoll env c token p timeout rMfa s =
  pushPoll env c token p (timeout - MFAInterval) rMfa'
    (extend s (snd (VerifyFactor env c token p (world s)))
       [EvSleep MFAInterval; EvVerifyFactor token p]).
Proof.
  intros Hp Ht Hr. rewrite pushPoll_round.
  rewrite Hp, String.eqb_refl.
  destruct (Z.gtb_spec timeout 0); [| lia]. cbn [andb].
  unfold Sleep. erewrite bind_Done by apply emit_run.
  unfold do_VerifyFactor. erewrite bind_Done by apply call_run.
  flatten_state. rewrite Hr. reflexivity.
Qed.

Lemma pushPoll_step_err timeout rMfa e (s : State W) :
  Status_Type rMfa = "pending" -> 0 < timeout ->
  fst (VerifyFactor env c token p (world s)) = Err e ->
  pushPoll env c token p timeout rMfa s =
  Returned (None, Some e)
    (extend s (snd (VerifyFactor env c token p (world s)))
       [EvSleep MFAInterval; EvVerifyFactor token p; EvSpinnerStop]).
Proof.
  intros Hp Ht Hr. rewrite pushPoll_round.
  rewrite Hp, String.eqb_refl.
  destruct (Z.gtb_spec timeout 0); [| lia]. cbn [andb].
  unfold Sleep. erewrite bind_Done by apply emit_run.
  unfold do_VerifyFactor. erewrite bind_Done by apply call_run.
  flatten_state. rewrite Hr.
  unfold SpinnerStop. erewrite bind_Done by apply emit_run.
  flatten_state. reflexivity.
Qed.

(** [k] polls within the budget that are all answered [pending]: the loop
    is then where it would be had it started after them. *)
Lemma pushPoll_advance (k : nat) :
  forall timeout rMfa (s : State W),
    Status_Type rMfa = "pending" ->
    Z.of_nat k <= timeout ->
    (forall i, (i < k)%nat ->
               has_status "pending" (poll_answer env c token p i (world s)) = true) ->
    exists r,
      pushPoll env c token p timeout rMfa s =
      pushPoll env c token p (timeout - Z.of_nat k) r
        (extend s (after_polls env c token p k (world s)) (polls token p k)) /\
      Status_Type r = "pending" /\
      match k with
      | O => r = rMfa
      | S j => poll_answer env c token p j (world s) = Ok r
      end.
Proof.
  induction k as [| k IH]; intros timeout rMfa s Hp Hk Hall.
  - exists rMfa. cbn [after_polls polls Z.of_nat].
    rewrite extend_nil, Z.sub_0_r. auto.
  - destruct (has_status_Ok _ _ (Hall 0%nat ltac:(lia))) as (r1 & Hr1 & Hp1).
    unfold poll_answer in Hr1. cbn [after_polls] in Hr1.
    rewrite (pushPoll_step_ok timeout rMfa r1 s Hp ltac:(lia) Hr1).
    destruct (IH (timeout - MFAInterval) r1
                (extend s (snd (VerifyFactor env c token p (world s)))
                   [EvSleep MFAInterval; EvVerifyFactor token p]) Hp1)
      as (r & Hrun & Hpr & Hlast).
    + unfold MFAInterval. lia.
    + intros i Hi. rewrite world_extend. apply (Hall (S i)). lia.
    + exists r. rewrite Hrun. flatten_state. split; [| split; [exact Hpr |]].
      * replace (timeout - MFAInterval - Z.of_nat k) with (timeout - Z.of_nat (S k))
          by (unfold MFAInterval; lia).
        reflexivity.
      * destruct k as [| j]; [subst r; exact Hr1 | exact Hlast].
Qed.

(** The loop never makes more polls than the budget allows, and it falls
    through with a [pending] response only when the whole budget was spent
    on polls answered [pending]. *)
Lemma pushPoll_fallthrough (n : nat) :
  forall timeout rMfa (s : State W) r s',
    Z.to_nat timeout = n ->
    pushPoll env c token p timeout rMfa s = Done r s' ->
    Status_Type r = "pending" ->
    (forall i, (i < n)%nat ->
               has_status "pending" (poll_answer env c token p i (world s)) = true) /\
    s' = extend s (after_polls env c token p n (world s)) (polls token p n).
Proof.
  induction n as [| n IH]; intros timeout rMfa s r s' Hn Hrun Hp.
  - rewrite pushPoll_exhausted in Hrun by lia. inversion Hrun; subst.
    split; [intros i Hi; lia |].
    cbn [after_polls polls]. rewrite extend_nil. reflexivity.
  - destruct (String.eqb_spec (Status_Type rMfa) "pending") as [Hp0 | Hp0].
    2:{ rewrite pushPoll_settled in Hrun by exact Hp0.
        inversion Hrun; subst. contradiction. }
    destruct (fst (VerifyFactor env c token p (world s))) as [r1 | e] eqn:Hr1.
    2:{ rewrite (pushPoll_step_err timeout rMfa e s Hp0 ltac:(lia) Hr1) in Hrun.
        discriminate. }
    rewrite (pushPoll_step_ok timeout rMfa r1 s Hp0 ltac:(lia) Hr1) in Hrun.
    destruct (IH (timeout - MFAInterval) r1 _ r s'
                ltac:(unfold MFAInterval; lia) Hrun Hp) as [Hall Hs].
    rewrite world_extend in Hall, Hs.
    assert (Hp1 : Status_Type r1 = "pending").
    { destruct (String.eqb_spec (Status_Type r1) "pending") as [H | H]; [exact H |].
      rewrite pushPoll_settled in Hrun by exact H.
      inversion Hrun; subst. contradiction. }
    split.
    + intros [| i] Hi.
      * unfold poll_answer. cbn [after_polls]. rewrite Hr1. simpl.
        rewrite Hp1. reflexivity.
      * apply Hall. lia.
    + rewrite Hs. flatten_state. reflexivity.
Qed.

(** The loop does not panic. *)
Lemma pushPoll_no_panic (n : nat) :
  forall timeout rMfa (s : State W),
    Z.to_nat timeout = n ->
    is_panic (pushPoll env c token p timeout rMfa s) = false.
Proof.
  induction n as [| n IH]; intros timeout rMfa s Hn.
  - rewrite pushPoll_exhausted by lia. reflexivity.
  - destruct (String.eqb_spec (Status_Type rMfa) "pending") as [Hp0 | Hp0].
    2:{ rewrite pushPoll_settled by exact Hp0. reflexivity. }
    destruct (fst (VerifyFactor env c token p (world s))) as [r1 | e] eqn:Hr1.
    + rewrite (pushPoll_step_ok timeout rMfa r1 s Hp0 ltac:(lia) Hr1).
      apply IH. unfold MFAInterval. lia.
    + rewrite (pushPoll_step_err timeout rMfa e s Hp0 ltac:(lia) Hr1). reflexivity.
Qed.

(** In every world the loop ends, with a response or with the error of a
    poll, after at most as many polls as the budget has intervals. *)
Lemma pushPoll_bounded (n : nat) :
  forall timeout rMfa (s : State W),
    Z.to_nat timeout = n ->
    exists w evs,
      (List.length (verify_factor_calls evs) <= n)%nat /\
      ((exists r, pushPoll env c token p timeout rMfa s = Done r (extend s w evs)) \/
       (exists e, pushPoll env c token p timeout rMfa s =
                  Returned (None, Some e) (extend s w evs))).
Proof.
  induction n as [| n IH]; intros timeout rMfa s Hn.
  - exists (world s), []. split; [simpl; lia |]. left. exists rMfa.
    rewrite pushPoll_exhausted by lia. rewrite extend_nil. reflexivity.
  - destruct (String.eqb_spec (Status_Type rMfa) "pending") as [Hp0 | Hp0].
    2:{ exists (world s), []. split; [simpl; lia |]. left. exists rMfa.
        rewrite pushPoll_settled by exact Hp0. rewrite extend_nil. reflexivity. }
    destruct (fst (VerifyFactor env c token p (world s))) as [r1 | e] eqn:Hr1.
    + rewrite (pushPoll_step_ok timeout rMfa r1 s Hp0 ltac:(lia) Hr1).
      destruct (IH (timeout - MFAInterval) r1
                  (extend s (snd (VerifyFactor env c token p (world s)))
                     [EvSleep MFAInterval; EvVerifyFactor token p])
                  ltac:(unfold MFAInterval; lia))
        as (w & evs & Hlen & Hrun).
      exists w, ([EvSleep MFAInterval; EvVerifyFactor token p] ++ evs)%list.
      split; [simpl; lia |].
      rewrite extend_extend in Hrun. exact Hrun.
    + rewrite (pushPoll_step_err timeout rMfa e s Hp0 ltac:(lia) Hr1).
      eexists _, _. split; [| right; exists e; reflexivity]. simpl. lia.
Qed.

(** Poll [k] is the first one not answered [pending], and it is within the
    budget: the loop ends with its response after [k + 1] polls. *)
Lemma pushPoll_accept (k : nat) timeout r0 (s : State W) rk :
  Status_Type r0 = "pending" ->
  Z.of_nat (S k) <= timeout ->
  (forall i, (i < k)%nat ->
             has_status "pending" (poll_answer env c token p i (world s)) = true) ->
  poll_answer env c token p k (world s) = Ok rk ->
  Status_Type rk <> "pending" ->
  pushPoll env c token p timeout r0 s =
  Done rk (extend s (after_polls env c token p (S k) (world s))
             (polls token p (S k))).
Proof.
  intros Hp0 Hk Hall Hrk Hnp.
  destruct (pushPoll_advance k timeout r0 s Hp0 ltac:(lia) Hall)
    as (r & Hrun & Hpr & _).
  rewrite Hrun.
  rewrite (pushPoll_step_ok (timeout - Z.of_nat k) r rk
             (extend s (after_polls env c token p k (world s)) (polls token p k))
             Hpr ltac:(lia) Hrk).
  rewrite pushPoll_settled by exact Hnp.
  flatten_state. rewrite <- after_polls_S, (polls_snoc token p k). reflexivity.
Qed.

(** Poll [k] is the first one not answered [pending], it fails, and it is
    within the budget: the spinner is stopped and [Get] returns the error. *)
Lemma pushPoll_abort (k : nat) timeout r0 (s : State W) e :
  Status_Type r0 = "pending" ->
  Z.of_nat (S k) <= timeout ->
  (forall i, (i < k)%nat ->
             has_status "pending" (poll_answer env c token p i (world s)) = true) ->
  poll_answer env c token p k (world s) = Err e ->
  pushPoll env c token p timeout r0 s =
  Returned (None, Some e)
    (extend s (after_polls env c token p (S k) (world s))
       (polls token p (S k) ++ [EvSpinnerStop])).
Proof.
  intros Hp0 Hk Hall He.
  destruct (pushPoll_advance k timeout r0 s Hp0 ltac:(lia) Hall)
    as (r & Hrun & Hpr & _).
  rewrite Hrun.
  rewrite (pushPoll_step_err (timeout - Z.of_nat k) r e
             (extend s (after_polls env c token p k (world s)) (polls token p k))
             Hpr ltac:(lia) He).
  flatten_state. rewrite <- after_polls_S.
  rewrite <- (polls_snoc token p k), <- app_assoc. reflexivity.
Qed.

(** The whole budget is spent on polls answered [pending]: the loop ends
    with the last of these responses. *)
Lemma pushPoll_timeout (k : nat) r0 (s : State W) :
  Status_Type r0 = "pending" ->
  (forall i, (i < k)%nat ->
             has_status "pending" (poll_answer env c token p i (world s)) = true) ->
  exists r,
    pushPoll env c token p (Z.of_nat k) r0 s =
    Done r (extend s (after_polls env c token p k (world s)) (polls token p k)) /\
    Status_Type r = "pending" /\
    match k with
    | O => r = r0
    | S j => poll_answer env c token p j (world s) = Ok r
    end.
Proof.
  intros Hp0 Hall.
  destruct (pushPoll_advance k (Z.of_nat k) r0 s Hp0 ltac:(lia) Hall)
    as (r & Hrun & Hpr & Hlast).
  exists r. rewrite Hrun.
  rewrite pushPoll_exhausted by lia. auto.
Qed.

End PushPhase.

(** ** MFA verification in [Get]: push phase and OTP entry *)

Section PushVerification.

Context {W Client : Type} (env : Env W Client).
Variables (c : Client) (a : OneLoginAppConfig) (token st deviceID : string).

Let p0 := push_params a st deviceID false.
Let p1 := push_params a st deviceID true.

(** The initial call fails: [Get] returns its error. *)
Lemma Get_push_initial_err (s : State W) e :
  fst (VerifyFactor env c token p0 (world s)) = Err e ->
  Get_push env c a token st deviceID s =
  Returned (None, Some e)
    (extend s (snd (VerifyFactor env c token p0 (world s)))
       [EvSpinnerStart; EvVerifyFactor token p0; EvSpinnerStop]).
Proof.
  intros Hr. unfold Get_push.
  unfold SpinnerStart at 1. erewrite bind_Done by apply emit_run.
  unfold do_VerifyFactor. erewrite bind_Done by apply call_run.
  unfold SpinnerStop at 1. erewrite bind_Done by apply emit_run.
  flatten_state. unfold p0, push_params in Hr. rewrite Hr. reflexivity.
Qed.

(** The initial call succeeds: its message is shown and polling starts. *)
Lemma Get_push_initial_ok (s : State W) r0 :
  fst (VerifyFactor env c token p0 (world s)) = Ok r0 ->
  Get_push env c a token st deviceID s =
  (rMfa <- pushPoll env c token p1 MFAPushTimeout r0 ;;
   SpinnerStop ;;
   if (Status_Type rMfa =? "pending")%string then
     emit timeout_notice ;; ret (rMfa, false)
   else ret (rMfa, true))
    (extend s (snd (VerifyFactor env c token p0 (world s)))
       (push_opening token p0 (Status_Message r0))).
Proof.
  intros Hr. unfold Get_push.
  unfold SpinnerStart at 1. erewrite bind_Done by apply emit_run.
  unfold do_VerifyFactor. erewrite bind_Done by apply call_run.
  unfold SpinnerStop at 1. erewrite bind_Done by apply emit_run.
  flatten_state. unfold p0, push_params in Hr. rewrite Hr.
  unfold try. erewrite bind_Done by reflexivity.
  unfold Print at 1. erewrite bind_Done by apply emit_run.
  unfold SpinnerStart at 1. erewrite bind_Done by apply emit_run.
  flatten_state. reflexivity.
Qed.

(** In [Get], a push-capable device type leads to the push phase; what
    follows depends on [pushOK]. *)
Lemma Get_verify_push duration (s : State W) :
  Get_verify env c a token st deviceID MFADeviceOneLoginProtect duration s =
  ('(rMfa, pushOK) <- Get_push env c a token st deviceID ;;
   if pushOK then Get_exchange env (Data rMfa) duration
   else rMfa' <- Get_otp env c a token st deviceID ;;
        Get_exchange env (Data rMfa') duration) s.
Proof.
  unfold Get_verify. rewrite String.eqb_refl.
  unfold bind, ret, deref.
  destruct (Get_push env c a token st deviceID s) as [[rMfa [|]] s1 | | |];
    cbv beta iota; cbn [negb]; try reflexivity.
  destruct (Get_otp env c a token st deviceID s1); reflexivity.
Qed.

(** In [Get], any other device type leads straight to the OTP. *)
Lemma Get_verify_otp deviceType duration (s : State W) :
  deviceType <> MFADeviceOneLoginProtect ->
  Get_verify env c a token st deviceID deviceType duration s =
  (rMfa <- Get_otp env c a token st deviceID ;;
   Get_exchange env (Data rMfa) duration) s.
Proof.
  intros Hty. unfold Get_verify.
  apply String.eqb_neq in Hty. rewrite Hty.
  unfold bind, ret, deref. cbn [negb].
  destruct (Get_otp env c a token st deviceID s); reflexivity.
Qed.

(** The answer to poll [i + 1] of the push phase is the answer to poll [i] of
    the loop that starts after the initial call. *)
Lemma answer_poll (i : nat) (w : W) :
  answer env c token p0 p1 (S i) w =
  poll_answer env c token p1 i (snd (VerifyFactor env c token p0 w)).
Proof. reflexivity. Qed.

(** C3.  The device is push-capable and the status becomes [accepted] on
    poll [k], with [k] intervals shorter than the budget: the push phase makes
    exactly [k + 1] verify-factor calls, the first with [doNotNotify] false
    and the [k] polls with [doNotNotify] true, each poll after a pause of
    [MFAInterval] seconds; it keeps [pushOK], and [Get] goes on to the
    exchange with the payload of the last of these calls. *)
Theorem push_accepted (k : nat) (rk : VerifyFactorResponse) (duration : Z)
    (s : State W) :
  Z.of_nat k * MFAInterval < MFAPushTimeout ->
  (forall i, (i < k)%nat ->
             has_status "pending" (answer env c token p0 p1 i (world s)) = true) ->
  answer env c token p0 p1 k (world s) = Ok rk ->
  Status_Type rk = "accepted" ->
  exists r0,
    answer env c token p0 p1 0 (world s) = Ok r0 /\
    let evs := (push_opening token p0 (Status_Message r0) ++
                polls token p1 k ++ [EvSpinnerStop])%list in
    let s' := extend s (world_before env c token p0 p1 (S k) (world s)) evs in
    Get_push env c a token st deviceID s = Done (rk, true) s' /\
    verify_factor_calls evs = (token, p0) :: repeat (token, p1) k /\
    sleeps evs = repeat MFAInterval k /\
    Get_verify env c a token st deviceID MFADeviceOneLoginProtect duration s =
    Get_exchange env (Data rk) duration s'.
Proof.
  intros Hk Hpend Hrk Hacc.
  assert (Hnp : Status_Type rk <> "pending") by (rewrite Hacc; discriminate).
  assert (Hfinish : forall r0 s1 evs1,
             pushPoll env c token p1 MFAPushTimeout r0
               (extend s (snd (VerifyFactor env c token p0 (world s)))
                  (push_opening token p0 (Status_Message r0))) =
             Done rk s1 ->
             fst (VerifyFactor env c token p0 (world s)) = Ok r0 ->
             s1 = extend s (world_before env c token p0 p1 (S k) (world s))
                    (push_opening token p0 (Status_Message r0) ++ evs1) ->
             Get_push env c a token st deviceID s =
             Done (rk, true)
                  (extend s (world_before env c token p0 p1 (S k) (world s))
                     (push_opening token p0 (Status_Message r0) ++ evs1 ++
                      [EvSpinnerStop]))).
  { intros r0 s1 evs1 Hpoll Hr0 Hs1.
    rewrite (Get_push_initial_ok s r0 Hr0).
    erewrite bind_Done by exact Hpoll.
    unfold SpinnerStop. erewrite bind_Done by apply emit_run.
    apply String.eqb_neq in Hnp. rewrite Hnp.
    subst s1. unfold ret. flatten_state. reflexivity. }
  assert (Hcalls : forall message,
             verify_factor_calls
               (push_opening token p0 message ++ polls token p1 k ++ [EvSpinnerStop]) =
             (token, p0) :: repeat (token, p1) k).
  { intros message. rewrite !verify_factor_calls_app, verify_factor_calls_polls.
    cbn [verify_factor_calls sleeps push_opening flat_map app].
    rewrite ?app_nil_r. reflexivity. }
  assert (Hsleeps : forall message,
             sleeps
               (push_opening token p0 message ++ polls token p1 k ++ [EvSpinnerStop]) =
             repeat MFAInterval k).
  { intros message. rewrite !sleeps_app, sleeps_polls.
    cbn [verify_factor_calls sleeps push_opening flat_map app].
    rewrite ?app_nil_r. reflexivity. }
  destruct k as [| j].
  - exists rk. split; [exact Hrk |].
    assert (Hpush : Get_push env c a token st deviceID s =
                    Done (rk, true)
                      (extend s (world_before env c token p0 p1 1 (world s))
                         (push_opening token p0 (Status_Message rk) ++
                          polls token p1 0 ++ [EvSpinnerStop]))).
    { eapply Hfinish; [| exact Hrk |].
      - apply pushPoll_settled. exact Hnp.
      - cbn [polls]. rewrite app_nil_r. reflexivity. }
    cbv zeta. split; [exact Hpush |]. split; [apply Hcalls |].
    split; [apply Hsleeps |].
    rewrite Get_verify_push. erewrite bind_Done by exact Hpush. reflexivity.
  - destruct (has_status_Ok _ _ (Hpend 0%nat ltac:(lia))) as (r0 & Hr0 & Hp0).
    exists r0. split; [exact Hr0 |].
    assert (Hpush : Get_push env c a token st deviceID s =
                    Done (rk, true)
                      (extend s (world_before env c token p0 p1 (S (S j)) (world s))
                         (push_opening token p0 (Status_Message r0) ++
                          polls token p1 (S j) ++ [EvSpinnerStop]))).
    { eapply Hfinish; [| exact Hr0 | reflexivity ].
      rewrite (pushPoll_accept env c token p1 j MFAPushTimeout r0 _ rk Hp0).
      - flatten_state. reflexivity.
      - unfold MFAInterval in Hk. lia.
      - intros i Hi. rewrite world_extend, <- answer_poll. apply Hpend. lia.
      - rewrite world_extend, <- answer_poll. exact Hrk.
      - exact Hnp. }
    cbv zeta. split; [exact Hpush |]. split; [apply Hcalls |].
    split; [apply Hsleeps |].
    rewrite Get_verify_push. erewrite bind_Done by exact Hpush. reflexivity.
Qed.

(** C4.  The device is push-capable and every call of the push phase, the
    initial one and the polls of the whole budget, is answered [pending]:
    the loop ends after [MFAPushTimeout / MFAInterval = 30] polls, the
    time-out is announced, the push phase ends normally with [pushOK] false,
    and [Get] goes on to the manual OTP entry. *)
Theorem push_timeout (duration : Z) (s : State W) :
  (forall i, Z.of_nat i * MFAInterval <= MFAPushTimeout ->
             has_status "pending" (answer env c token p0 p1 i (world s)) = true) ->
  exists r0 r,
    answer env c token p0 p1 0 (world s) = Ok r0 /\
    answer env c token p0 p1 30 (world s) = Ok r /\
    let evs := (push_opening token p0 (Status_Message r0) ++
                polls token p1 30 ++ [EvSpinnerStop; timeout_notice])%list in
    let s' := extend s (world_before env c token p0 p1 31 (world s)) evs in
    Get_push env c a token st deviceID s = Done (r, false) s' /\
    verify_factor_calls evs = (token, p0) :: repeat (token, p1) 30 /\
    sleeps evs = repeat MFAInterval 30 /\
    Get_verify env c a token st deviceID MFADeviceOneLoginProtect duration s =
    (rMfa <- Get_otp env c a token st deviceID ;;
     Get_exchange env (Data rMfa) duration) s'.
Proof.
  intros Hpend.
  destruct (has_status_Ok _ _ (Hpend 0%nat ltac:(unfold MFAPushTimeout; lia)))
    as (r0 & Hr0 & Hp0).
  destruct (pushPoll_timeout env c token p1 30 r0
              (extend s (snd (VerifyFactor env c token p0 (world s)))
                 (push_opening token p0 (Status_Message r0))) Hp0)
    as (r & Hpoll & Hpr & Hlast).
  { intros i Hi. rewrite world_extend, <- answer_poll. apply Hpend.
    unfold MFAInterval, MFAPushTimeout. lia. }
  rewrite world_extend in Hpoll, Hlast.
  exists r0, r. split; [exact Hr0 |]. split; [exact Hlast |].
  assert (Hpush : Get_push env c a token st deviceID s =
                  Done (r, false)
                    (extend s (world_before env c token p0 p1 31 (world s))
                       (push_opening token p0 (Status_Message r0) ++
                        polls token p1 30 ++ [EvSpinnerStop; timeout_notice]))).
  { rewrite (Get_push_initial_ok s r0 Hr0).
    change MFAPushTimeout with (Z.of_nat 30).
    erewrite bind_Done by exact Hpoll.
    unfold SpinnerStop. erewrite bind_Done by apply emit_run.
    rewrite Hpr, String.eqb_refl.
    erewrite bind_Done by apply emit_run.
    unfold ret. flatten_state. reflexivity. }
  cbv zeta. split; [exact Hpush |].
  split.
  { rewrite !verify_factor_calls_app, verify_factor_calls_polls.
    cbn [verify_factor_calls sleeps push_opening flat_map app].
    rewrite ?app_nil_r. reflexivity. }
  split.
  { rewrite !sleeps_app, sleeps_polls.
    cbn [verify_factor_calls sleeps push_opening flat_map app].
    rewrite ?app_nil_r. reflexivity. }
  rewrite Get_verify_push. erewrite bind_Done by exact Hpush. reflexivity.
Qed.

(** C7.  (1) Whichever call of the push phase is the first not answered
    [pending], the initial call ([j = 0]) or poll [j], if it fails with error
    [e] then the push phase and with it [Get] return [(nil, e)] there and
    then: [j + 1] verify-factor calls were made and nothing was read from the
    terminal.  (2) The push phase hands over to the OTP entry ([pushOK] false)
    only when every call of the whole budget was answered [pending]. *)
Theorem push_error (duration : Z) (s : State W) :
  (forall (j : nat) (e : error),
      Z.of_nat j * MFAInterval <= MFAPushTimeout ->
      (forall i, (i < j)%nat ->
                 has_status "pending" (answer env c token p0 p1 i (world s)) = true) ->
      answer env c token p0 p1 j (world s) = Err e ->
      exists evs,
        let s' := extend s (world_before env c token p0 p1 (S j) (world s)) evs in
        Get_push env c a token st deviceID s = Returned (None, Some e) s' /\
        Get_verify env c a token st deviceID MFADeviceOneLoginProtect duration s =
        Returned (None, Some e) s' /\
        verify_factor_calls evs = (token, p0) :: repeat (token, p1) j /\
        reads evs = 0%nat) /\
  (forall r s',
      Get_push env c a token st deviceID s = Done (r, false) s' ->
      forall i, Z.of_nat i * MFAInterval <= MFAPushTimeout ->
                has_status "pending" (answer env c token p0 p1 i (world s)) = true).
Proof.
  split.
  - intros j e Hj Hpend He.
    assert (Hdone : forall evs,
               Get_push env c a token st deviceID s =
               Returned (None, Some e)
                 (extend s (world_before env c token p0 p1 (S j) (world s)) evs) ->
               Get_verify env c a token st deviceID MFADeviceOneLoginProtect
                 duration s =
               Returned (None, Some e)
                 (extend s (world_before env c token p0 p1 (S j) (world s)) evs)).
    { intros evs Hpush. rewrite Get_verify_push.
      apply bind_Returned. exact Hpush. }
    destruct j as [| j].
    + exists [EvSpinnerStart; EvVerifyFactor token p0; EvSpinnerStop].
      cbv zeta.
      assert (Hpush := Get_push_initial_err s e He).
      split; [exact Hpush |]. split; [apply Hdone; exact Hpush |].
      split; reflexivity.
    + destruct (has_status_Ok _ _ (Hpend 0%nat ltac:(lia))) as (r0 & Hr0 & Hp0).
      exists (push_opening token p0 (Status_Message r0) ++
              polls token p1 (S j) ++ [EvSpinnerStop])%list.
      cbv zeta.
      assert (Hpush : Get_push env c a token st deviceID s =
                      Returned (None, Some e)
                        (extend s (world_before env c token p0 p1 (S (S j)) (world s))
                           (push_opening token p0 (Status_Message r0) ++
                            polls token p1 (S j) ++ [EvSpinnerStop]))).
      { rewrite (Get_push_initial_ok s r0 Hr0).
        apply bind_Returned.
        rewrite (pushPoll_abort env c token p1 j MFAPushTimeout r0 _ e Hp0).
        - flatten_state. reflexivity.
        - unfold MFAInterval in Hj. lia.
        - intros i Hi. rewrite world_extend, <- answer_poll. apply Hpend. lia.
        - rewrite world_extend, <- answer_poll. exact He. }
      split; [exact Hpush |]. split; [apply Hdone; exact Hpush |].
      split.
      * rewrite !verify_factor_calls_app, verify_factor_calls_polls.
        cbn [verify_factor_calls sleeps push_opening flat_map app].
    rewrite ?app_nil_r. reflexivity.
      * rewrite !reads_app, reads_polls. reflexivity.
  - intros r s' Hpush.
    destruct (fst (VerifyFactor env c token p0 (world s))) as [r0 | e] eqn:Hr0.
    2:{ rewrite (Get_push_initial_err s e Hr0) in Hpush. discriminate. }
    rewrite (Get_push_initial_ok s r0 Hr0) in Hpush.
    unfold bind at 1 in Hpush.
    destruct (pushPoll env c token p1 MFAPushTimeout r0 _)
      as [rMfa s2 | | |] eqn:Hpoll; try discriminate.
    unfold SpinnerStop in Hpush. erewrite bind_Done in Hpush by apply emit_run.
    destruct (String.eqb_spec (Status_Type rMfa) "pending") as [Hp | Hp];
      [| discriminate].
    destruct (pushPoll_fallthrough env c token p1 30 MFAPushTimeout r0 _ rMfa s2
                eq_refl Hpoll Hp)
      as [Hall _].
    rewrite world_extend in Hall.
    assert (Hp0 : Status_Type r0 = "pending").
    { destruct (String.eqb_spec (Status_Type r0) "pending") as [H | H]; [exact H |].
      rewrite pushPoll_settled in Hpoll by exact H.
      inversion Hpoll; subst. contradiction. }
    intros [| i] Hi.
    + unfold answer. cbn [world_before]. rewrite Hr0. simpl.
      rewrite Hp0. reflexivity.
    + rewrite answer_poll. apply Hall.
      unfold MFAInterval, MFAPushTimeout in Hi. lia.
Qed.

(** The OTP block runs without a choice of its own: prompt, read, one call. *)
Lemma Get_otp_run (s : State W) :
  let otp := fst (fst (Scanln env (world s))) in
  let pMfa := otp_params a st deviceID otp in
  let reply := VerifyFactor env c token pMfa (snd (Scanln env (world s))) in
  let s' := extend s (snd reply)
              [otp_prompt; EvScanln; EvSpinnerStart; EvVerifyFactor token pMfa;
               EvSpinnerStop] in
  Get_otp env c a token st deviceID s =
  match fst reply with
  | Err e => Returned (None, Some ("verifying factor: " ++ e)) s'
  | Ok rMfa => Done rMfa s'
  end.
Proof.
  cbv zeta. unfold Get_otp.
  unfold Print. erewrite bind_Done by apply emit_run.
  unfold do_Scanln. erewrite bind_Done by apply call_run.
  flatten_state.
  destruct (Scanln env (world s)) as [[otp err] w1]. cbn [fst snd].
  unfold SpinnerStart. erewrite bind_Done by apply emit_run.
  unfold do_VerifyFactor. erewrite bind_Done by apply call_run.
  unfold SpinnerStop. erewrite bind_Done by apply emit_run.
  flatten_state. unfold otp_params.
  destruct (VerifyFactor env c token _ w1) as [[rMfa | e] w2]; reflexivity.
Qed.

(** C2 (as amended).  An OTP submission prompts, reads the code and makes
    exactly one verify-factor call, which carries the code; a transport error
    makes [Get] return the error "verifying factor: ..." and nothing is
    retried; a response that comes without a transport error is taken as it
    is, whatever its status, and [Get] goes on to the exchange with its
    payload.  The submission is reached when the device is not push-capable
    and when the push phase ended with [pushOK] false. *)
Theorem otp_submission (deviceType : string) (duration : Z) (s : State W) :
  let otp := fst (fst (Scanln env (world s))) in
  let pMfa := otp_params a st deviceID otp in
  let reply := VerifyFactor env c token pMfa (snd (Scanln env (world s))) in
  let s' := extend s (snd reply)
              [otp_prompt; EvScanln; EvSpinnerStart; EvVerifyFactor token pMfa;
               EvSpinnerStop] in
  Get_otp env c a token st deviceID s =
  match fst reply with
  | Err e => Returned (None, Some ("verifying factor: " ++ e)) s'
  | Ok rMfa => Done rMfa s'
  end /\
  (deviceType <> MFADeviceOneLoginProtect ->
   Get_verify env c a token st deviceID deviceType duration s =
   match fst reply with
   | Err e => Returned (None, Some ("verifying factor: " ++ e)) s'
   | Ok rMfa => Get_exchange env (Data rMfa) duration s'
   end) /\
  (forall s0 r,
      Get_push env c a token st deviceID s0 = Done (r, false) s ->
      Get_verify env c a token st deviceID MFADeviceOneLoginProtect duration s0 =
      match fst reply with
      | Err e => Returned (None, Some ("verifying factor: " ++ e)) s'
      | Ok rMfa => Get_exchange env (Data rMfa) duration s'
      end).
Proof.
  pose proof (Get_otp_run s) as Hotp. cbv zeta in *.
  split; [exact Hotp |].
  assert (Hnext : forall o,
    o = (rMfa <- Get_otp env c a token st deviceID ;;
         Get_exchange env (Data rMfa) duration) s ->
    o =
    match fst (VerifyFactor env c token
                 (otp_params a st deviceID (fst (fst (Scanln env (world s)))))
                 (snd (Scanln env (world s)))) with
    | Err e =>
        Returned (None, Some ("verifying factor: " ++ e))
          (extend s
             (snd (VerifyFactor env c token
                     (otp_params a st deviceID (fst (fst (Scanln env (world s)))))
                     (snd (Scanln env (world s)))))
             [otp_prompt; EvScanln; EvSpinnerStart;
              EvVerifyFactor token
                (otp_params a st deviceID (fst (fst (Scanln env (world s)))));
              EvSpinnerStop])
    | Ok rMfa =>
        Get_exchange env (Data rMfa) duration
          (extend s
             (snd (VerifyFactor env c token
                     (otp_params a st deviceID (fst (fst (Scanln env (world s)))))
                     (snd (Scanln env (world s)))))
             [otp_prompt; EvScanln; EvSpinnerStart;
              EvVerifyFactor token
                (otp_params a st deviceID (fst (fst (Scanln env (world s)))));
              EvSpinnerStop])
    end).
  { intros o ->. unfold bind at 1. rewrite Hotp.
    destruct (fst (VerifyFactor env c token _ _)); reflexivity. }
  split.
  - intros Hty. apply Hnext. apply Get_verify_otp. exact Hty.
  - intros s0 r Hpush. apply Hnext. rewrite Get_verify_push.
    erewrite bind_Done by exact Hpush. reflexivity.
Qed.

End PushVerification.

(** ** The credential exchange *)

Section Exchange.

Context {W Client : Type} (env : Env W Client).

(** The exchange, once the role binding has been read from the payload. *)
Lemma Get_exchange_run (data : string) (duration : Z) (arn : ARN) (s : State W) :
  saml_Get env data = Ok arn ->
  let first := AssumeSAMLRole env (Provider arn) (Role arn) data duration (world s) in
  let second := AssumeSAMLRole env (Provider arn) (Role arn) data 3600 (snd first) in
  let attempt d := EvAssumeSAMLRole (Provider arn) (Role arn) data d in
  Get_exchange env data duration s =
  match snd (fst first) with
  | None =>
      Done (fst first)
        (extend s (snd first) [EvSpinnerStart; attempt duration; EvSpinnerStop])
  | Some e =>
      if (e =? ErrDurationExceeded env)%string then
        Done (fst second)
          (extend s (snd second)
             [EvSpinnerStart; attempt duration; EvSpinnerStop;
              EvLog (YellowString env (DurationExceededMessage env));
              EvSpinnerStart; attempt 3600; EvSpinnerStop])
      else
        Done (fst first)
          (extend s (snd first) [EvSpinnerStart; attempt duration; EvSpinnerStop])
  end.
Proof.
  intros Harn. cbv zeta. unfold Get_exchange. rewrite Harn.
  unfold try. erewrite bind_Done by reflexivity.
  unfold SpinnerStart at 1. erewrite bind_Done by apply emit_run.
  unfold do_AssumeSAMLRole at 1. erewrite bind_Done by apply call_run.
  flatten_state.
  destruct (AssumeSAMLRole env (Provider arn) (Role arn) data duration (world s))
    as [[creds err] w1]. cbn [fst snd].
  unfold SpinnerStop at 1. erewrite bind_Done by apply emit_run.
  flatten_state.
  destruct err as [e |]; [| reflexivity].
  destruct (e =? ErrDurationExceeded env)%string; [| reflexivity].
  unfold Log. erewrite bind_Done by apply emit_run.
  unfold SpinnerStart. erewrite bind_Done by apply emit_run.
  unfold do_AssumeSAMLRole. erewrite bind_Done by apply call_run.
  flatten_state.
  destruct (AssumeSAMLRole env (Provider arn) (Role arn) data 3600 w1)
    as [[creds2 err2] w2]. cbn [fst snd].
  unfold SpinnerStop. erewrite bind_Done by apply emit_run.
  flatten_state. reflexivity.
Qed.

(** C5.  The first role-assumption attempt is rejected with the
    duration-exceeded error and the retry with a duration of 3600 seconds
    succeeds: the exchange returns the credentials of the second attempt and
    a nil error, and the rejection is only logged. *)
Theorem exchange_fallback (data : string) (duration : Z) (arn : ARN)
    (creds1 : option Credentials) (creds2 : Credentials) (s : State W) :
  let first := AssumeSAMLRole env (Provider arn) (Role arn) data duration (world s) in
  let second := AssumeSAMLRole env (Provider arn) (Role arn) data 3600 (snd first) in
  saml_Get env data = Ok arn ->
  fst first = (creds1, Some (ErrDurationExceeded env)) ->
  fst second = (Some creds2, None) ->
  Get_exchange env data duration s =
  Done (Some creds2, None)
    (extend s (snd second)
       [EvSpinnerStart;
        EvAssumeSAMLRole (Provider arn) (Role arn) data duration;
        EvSpinnerStop;
        EvLog (YellowString env (DurationExceededMessage env));
        EvSpinnerStart;
        EvAssumeSAMLRole (Provider arn) (Role arn) data 3600;
        EvSpinnerStop]).
Proof.
  cbv zeta. intros Harn H1 H2.
  rewrite (Get_exchange_run data duration arn s Harn). cbv zeta.
  rewrite H1. cbn [fst snd]. rewrite String.eqb_refl, H2. reflexivity.
Qed.


End Exchange.

(** ** Panics *)

Section NoPanic.

Context {W Client : Type} (env : Env W Client).

Lemma bind_no_panic {R A B} (m : M W R A) (k : A -> M W R B) (s : State W) :
  is_panic (m s) = false ->
  (forall x s', is_panic (k x s') = false) ->
  is_panic (bind m k s) = false.
Proof.
  intros Hm Hk. unfold bind.
  destruct (m s); try reflexivity; [apply Hk | discriminate].
Qed.

Lemma try_no_panic {A} (r : Result A) wrap (s : State W) :
  is_panic (try r wrap s) = false.
Proof. destruct r; reflexivity. Qed.

Lemma call_no_panic {R A} ev (f : W -> A * W) (s : State W) :
  is_panic (call (R := R) ev f s) = false.
Proof. rewrite call_run. reflexivity. Qed.

(** Goals of the form [is_panic (block s) = false] for straight-line blocks. *)
Ltac no_panic :=
  repeat first
    [ reflexivity
    | apply try_no_panic
    | apply call_no_panic
    | apply bind_no_panic; [| intros ? ?]
    | match goal with
      | |- is_panic ((if ?b then _ else _) _) = false => destruct b
      | |- is_panic (match ?x with _ => _ end _) = false => is_var x; destruct x
      end ].

Lemma getDevice_no_panic {R} (fuel : nat) (devices : list Device) (s : State W) :
  is_panic (getDevice (R := R) env fuel devices s) = false.
Proof.
  destruct devices as [| d1 [| d2 rest]]; try reflexivity.
  rewrite getDevice_many by (simpl; lia).
  pose proof (getDevice_loop_inv (R := R) env (d1 :: d2 :: rest) fuel s) as Hinv.
  unfold bind at 1.
  destruct (getDevice_loop env fuel (d1 :: d2 :: rest) s) as [v s1 | | |];
    try reflexivity; [| contradiction].
  destruct Hinv as (n & _ & _ & Hok & _).
  destruct (valid_selection_device _ _ _ Hok) as [d Hd].
  replace (v - 1) with (Z.of_nat (Z.to_nat (v - 1)))
    by (destruct Hok as (_ & _ & ? & _); lia).
  erewrite bind_Done by (apply index_in_range; exact Hd).
  reflexivity.
Qed.

Lemma Get_push_no_panic c a token st deviceID (s : State W) :
  is_panic (Get_push env c a token st deviceID s) = false.
Proof.
  unfold Get_push. no_panic.
  apply (pushPoll_no_panic env c token _ 30). reflexivity.
Qed.

Lemma Get_otp_no_panic c a token st deviceID (s : State W) :
  is_panic (Get_otp env c a token st deviceID s) = false.
Proof.
  unfold Get_otp. no_panic.
Qed.

Lemma Get_exchange_no_panic data duration (s : State W) :
  is_panic (Get_exchange env data duration s) = false.
Proof.
  unfold Get_exchange. no_panic.
Qed.

Lemma Get_verify_no_panic c a token st deviceID deviceType duration (s : State W) :
  is_panic (Get_verify env c a token st deviceID deviceType duration s) = false.
Proof.
  destruct (String.eqb_spec deviceType MFADeviceOneLoginProtect) as [-> | Hty].
  - rewrite Get_verify_push. apply bind_no_panic; [apply Get_push_no_panic |].
    intros [rMfa [|]] s'.
    + apply Get_exchange_no_panic.
    + apply bind_no_panic; [apply Get_otp_no_panic |].
      intros; apply Get_exchange_no_panic.
  - rewrite Get_verify_otp by exact Hty.
    apply bind_no_panic; [apply Get_otp_no_panic |].
    intros; apply Get_exchange_no_panic.
Qed.

Lemma func_no_panic {R R'} (body : M W R R) (s : State W) :
  is_panic (body s) = false -> is_panic (func (R' := R') body s) = false.
Proof. unfold func. destruct (body s); auto. Qed.

End NoPanic.

(** ** The flow *)

Section Flow.

Context {W Client : Type} (env : Env W Client).

(** After the session stage, [Get] reads [rSaml.Data[0]]. *)
Lemma Get_after_session fuel app provider duration (s s1 : State W) a c token rSaml :
  Get_session env app provider s = Done (a, c, token, rSaml) s1 ->
  Get env fuel app provider duration s =
  func (d0 <- index (saml_Data rSaml) 0 ;;
        '(deviceID, deviceType, _) <- getDevice env fuel (Devices d0) ;;
        Get_verify env c a token (StateToken d0) deviceID deviceType duration) s1.
Proof.
  intros Hsession. unfold Get, Get_body, func.
  erewrite bind_Done by exact Hsession. reflexivity.
Qed.


(** With an empty device set, [getDevice] reports an error, and [Get] goes on
    to the OTP entry with an empty device id all the same. *)
Lemma Get_without_device fuel app provider duration (s s1 : State W)
    a c token rSaml d rest :
  Get_session env app provider s = Done (a, c, token, rSaml) s1 ->
  saml_Data rSaml = d :: rest ->
  Devices d = [] ->
  getDevice (R := GoResult) env fuel (Devices d) s1 =
  Done ("", "", Some "No MFA device returned by Onelogin") s1 /\
  Get env fuel app provider duration s =
  func (rMfa <- Get_otp env c a token (StateToken d) "" ;;
        Get_exchange env (Data rMfa) duration) s1.
Proof.
  intros Hsession Hdata Hdev.
  rewrite (Get_after_session fuel app provider duration s s1 a c token rSaml Hsession).
  rewrite Hdata. split; [rewrite Hdev; reflexivity |].
  unfold func.
  erewrite bind_Done by reflexivity. rewrite Hdev.
  erewrite bind_Done by reflexivity. cbv beta iota.
  rewrite Get_verify_otp by discriminate. reflexivity.
Qed.

(** C10.  After a successful assertion request [Get] reads element 0 of the
    response's [Data] without a check: with an empty [Data] it panics with an
    index out of range; with a non-empty [Data] it takes the state token and
    the device set from the first element, and does not panic. *)
Theorem Get_indexes_first_data fuel app provider duration (s s1 : State W)
    a c token rSaml :
  Get_session env app provider s = Done (a, c, token, rSaml) s1 ->
  (saml_Data rSaml = [] ->
   Get env fuel app provider duration s = Panic "index out of range" s1) /\
  (forall d rest,
      saml_Data rSaml = d :: rest ->
      Get env fuel app provider duration s =
      func ('(deviceID, deviceType, _) <- getDevice env fuel (Devices d) ;;
            Get_verify env c a token (StateToken d) deviceID deviceType duration) s1 /\
      is_panic (Get env fuel app provider duration s) = false).
Proof.
  intros Hsession.
  rewrite (Get_after_session fuel app provider duration s s1 a c token rSaml Hsession).
  split.
  - intros Hdata. rewrite Hdata. reflexivity.
  - intros d rest Hdata. rewrite Hdata.
    assert (Hfirst :
      func (R' := GoResult)
           (d0 <- index (d :: rest) 0 ;;
            '(deviceID, deviceType, _) <- getDevice env fuel (Devices d0) ;;
            Get_verify env c a token (StateToken d0) deviceID deviceType duration) s1 =
      func ('(deviceID, deviceType, _) <- getDevice env fuel (Devices d) ;;
            Get_verify env c a token (StateToken d) deviceID deviceType duration) s1).
    { unfold func. erewrite bind_Done by reflexivity. reflexivity. }
    rewrite Hfirst. split; [reflexivity |].
    apply func_no_panic. apply bind_no_panic; [apply getDevice_no_panic |].
    intros [[deviceID deviceType] err] s'. apply Get_verify_no_panic.
Qed.

End Flow.

(** ** Runs in the scripted world *)

(** C1.  The identity provider returns an empty device set: [getDevice]
    reports "No MFA device returned by Onelogin", yet [Get] does not return
    that error; it asks for an OTP, calls verify-factor with an empty device
    id, exchanges the assertion and returns credentials with a nil error. *)
Theorem Get_ignores_missing_device :
  let w := Mock.world0 [{| StateToken := "st"; Devices := [] |}]
             [("123456", None)]
             [Ok (Mock.response "accepted" "SAML")]
             [(Some Mock.creds0, None)] in
  let o := Get Mock.env 0 "app" "prov" 3600 (Mock.start w) in
  value_of (getDevice (R := GoResult) Mock.env 0 [] (Mock.start w)) =
    Some ("", "", Some "No MFA device returned by Onelogin") /\
  value_of o = Some (Some Mock.creds0, None) /\
  verify_factor_calls (trace_of o) =
    [("T", otp_params {| ID := "app" |} "st" "" "123456")] /\
  assume_role_calls (trace_of o) = [3600].
Proof. vm_compute. auto. Qed.

(** C2, as stated, fails: the only device is not push-capable, the OTP is
    submitted once, the response comes without a transport error and with the
    status [rejected], which is neither [pending] nor [accepted], and [Get]
    does not fail: it returns credentials and a nil error. *)
Lemma otp_rejected_status_is_not_fatal :
  let r := Mock.response "rejected" "SAML" in
  let w := Mock.world0 [{| StateToken := "st"; Devices := [Mock.yubikey] |}]
             [("123456", None)] [Ok r] [(Some Mock.creds0, None)] in
  let o := Get Mock.env 0 "app" "prov" 3600 (Mock.start w) in
  Status_Type r <> "pending" /\ Status_Type r <> "accepted" /\
  verify_factor_calls (trace_of o) =
    [("T", otp_params {| ID := "app" |} "st" "12" "123456")] /\
  value_of o = Some (Some Mock.creds0, None).
Proof.
  vm_compute. repeat split; discriminate.
Qed.

(** Two devices; the user types [x], then [3], then [2]: the second device
    is chosen. *)
Lemma getDevice_selection_witness :
  value_of
    (getDevice (R := GoResult) Mock.env 3 [Mock.yubikey; Mock.protect]
       (Mock.start (Mock.world0 [] [("x", None); ("3", None); ("2", None)] [] []))) =
  Some ("7", "OneLogin Protect", None).
Proof.
  destruct (getDevice_selection (R := GoResult) Mock.env
              [Mock.yubikey; Mock.protect] 3
              (Mock.start (Mock.world0 [] [("x", None); ("3", None); ("2", None)]
                             [] [])))
    as [Hrun _]; [simpl; lia |].
  destruct (Hrun 2%nat 2) as (d & Hd & Hget).
  - lia.
  - intros i Hi v (_ & Hv & _ & Hhi).
    destruct i as [| [| i]]; [| | lia]; vm_compute in Hv.
    + discriminate.
    + inversion Hv; subst. simpl in Hhi. lia.
  - split; [reflexivity |]. split; [reflexivity |]. simpl. lia.
  - rewrite Hget. simpl in Hd. inversion Hd; subst. reflexivity.
Defined.

(** The initial call and the first poll are answered [pending], the second
    poll [accepted]. *)
Lemma push_accepted_witness :
  value_of
    (Get_push Mock.env tt {| ID := "app" |} "T" "st" "7"
       (Mock.start
          (Mock.world0 [] []
             [Ok (Mock.response "pending" ""); Ok (Mock.response "pending" "");
              Ok (Mock.response "accepted" "SAML")] []))) =
  Some (Mock.response "accepted" "SAML", true).
Proof.
  destruct (push_accepted Mock.env tt {| ID := "app" |} "T" "st" "7" 2
              (Mock.response "accepted" "SAML") 3600
              (Mock.start
                 (Mock.world0 [] []
                    [Ok (Mock.response "pending" "");
                     Ok (Mock.response "pending" "");
                     Ok (Mock.response "accepted" "SAML")] [])))
    as (r0 & _ & Hpush & _).
  - reflexivity.
  - intros i Hi. destruct i as [| [| i]]; [reflexivity | reflexivity | lia].
  - reflexivity.
  - reflexivity.
  - rewrite Hpush. reflexivity.
Defined.

(** Thirty-one answers [pending] in a row. *)
Lemma push_timeout_witness :
  value_of
    (Get_push Mock.env tt {| ID := "app" |} "T" "st" "7"
       (Mock.start
          (Mock.world0 [] [] (repeat (Ok (Mock.response "pending" "")) 31) []))) =
  Some (Mock.response "pending" "", false).
Proof.
  destruct (push_timeout Mock.env tt {| ID := "app" |} "T" "st" "7" 3600
              (Mock.start
                 (Mock.world0 [] []
                    (repeat (Ok (Mock.response "pending" "")) 31) [])))
    as (r0 & r & _ & Hr & Hpush & _).
  - intros i Hi.
    do 31 (destruct i as [| i]; [reflexivity |]).
    unfold MFAInterval, MFAPushTimeout in Hi. lia.
  - rewrite Hpush. vm_compute in Hr. inversion Hr; subst. reflexivity.
Defined.

(** The first poll fails with "boom"; and in the world of thirty-one
    [pending] answers the last poll of the budget was answered [pending]. *)
Lemma push_error_witness :
  (exists s',
      Get_verify Mock.env tt {| ID := "app" |} "T" "st" "7"
        MFADeviceOneLoginProtect 3600
        (Mock.start
           (Mock.world0 [] [] [Ok (Mock.response "pending" ""); Err "boom"] [])) =
      Returned (None, Some "boom") s') /\
  has_status "pending"
    (answer Mock.env tt "T"
       (push_params {| ID := "app" |} "st" "7" false)
       (push_params {| ID := "app" |} "st" "7" true) 30
       (Mock.world0 [] [] (repeat (Ok (Mock.response "pending" "")) 31) [])) = true.
Proof.
  split.
  - destruct (push_error Mock.env tt {| ID := "app" |} "T" "st" "7" 3600
                (Mock.start
                   (Mock.world0 [] []
                      [Ok (Mock.response "pending" ""); Err "boom"] [])))
      as [Herr _].
    destruct (Herr 1%nat "boom") as (evs & _ & Hverify & _).
    + unfold MFAInterval, MFAPushTimeout. lia.
    + intros i Hi. destruct i as [| i]; [reflexivity | lia].
    + reflexivity.
    + eexists. exact Hverify.
  - destruct (push_error Mock.env tt {| ID := "app" |} "T" "st" "7" 3600
                (Mock.start
                   (Mock.world0 [] []
                      (repeat (Ok (Mock.response "pending" "")) 31) [])))
      as [_ Hfallback].
    eapply (Hfallback _ _) with (i := 30%nat).
    + vm_compute. reflexivity.
    + unfold MFAInterval, MFAPushTimeout. lia.
Defined.

(** A device without push, and a verify-factor call that fails with
    "denied". *)
Lemma otp_submission_witness :
  exists s',
    Get_verify Mock.env tt {| ID := "app" |} "T" "st" "12" "Yubico YubiKey" 3600
      (Mock.start (Mock.world0 [] [("123456", None)] [Err "denied"] [])) =
    Returned (None, Some "verifying factor: denied") s'.
Proof.
  destruct (otp_submission Mock.env tt {| ID := "app" |} "T" "st" "12"
              "Yubico YubiKey" 3600
              (Mock.start (Mock.world0 [] [("123456", None)] [Err "denied"] [])))
    as (_ & Hother & _).
  rewrite Hother by discriminate.
  eexists. reflexivity.
Defined.

(** The requested 7200 seconds are too long for the role, 3600 are not. *)
Lemma exchange_fallback_witness :
  value_of
    (Get_exchange Mock.env "SAML" 7200
       (Mock.start
          (Mock.world0 [] [] []
             [(None, Some "DurationExceeded"); (Some Mock.creds1, None)]))) =
  Some (Some Mock.creds1, None).
Proof.
  rewrite (exchange_fallback Mock.env "SAML" 7200 Mock.arn0 None Mock.creds1).
  - reflexivity.
  - reflexivity.
  - reflexivity.
  - reflexivity.
Defined.



(** An assertion response without data, and one with a single device. *)
Lemma Get_indexes_first_data_witness :
  is_panic (Get Mock.env 0 "app" "prov" 3600
              (Mock.start (Mock.world0 [] [] [] []))) = true /\
  is_panic (Get Mock.env 0 "app" "prov" 3600
              (Mock.start
                 (Mock.world0 [{| StateToken := "st"; Devices := [Mock.yubikey] |}]
                    [] [] []))) = false.
Proof.
  split.
  - edestruct (Get_indexes_first_data Mock.env 0 "app" "prov" 3600
                 (Mock.start (Mock.world0 [] [] [] []))) as [Hempty _].
    + vm_compute. reflexivity.
    + rewrite Hempty by reflexivity. reflexivity.
  - edestruct (Get_indexes_first_data Mock.env 0 "app" "prov" 3600
                 (Mock.start
                    (Mock.world0
                       [{| StateToken := "st"; Devices := [Mock.yubikey] |}]
                       [] [] []))) as [_ Hfirst].
    + vm_compute. reflexivity.
    + edestruct Hfirst as [_ Hsafe]; [reflexivity | exact Hsafe].
Defined.

(** ** Numbers on the terminal *)

Section Numbers.

(** The character of a digit is read back as the digit. *)
Ltac read_digit :=
  match goal with
  | |- context [digit_of ?ch] =>
      let v := eval vm_compute in (digit_of ch) in
      change (digit_of ch) with v; cbv beta iota
  end.

Lemma parse_digits_acc (d : Decimal.uint) :
  forall acc : positive,
    parse_digits (Z.pos acc) (NilEmpty.string_of_uint d) =
    Some (Z.pos (Pos.of_uint_acc d acc)).
Proof.
  induction d; intros acc; cbn [NilEmpty.string_of_uint Pos.of_uint_acc];
    [reflexivity | ..];
    cbn [parse_digits]; read_digit; rewrite <- IHd; f_equal; lia.
Qed.

Lemma parse_digits_uint (d : Decimal.uint) :
  parse_digits 0 (NilEmpty.string_of_uint d) = Some (Z.of_N (Pos.of_uint d)).
Proof.
  induction d; cbn [NilEmpty.string_of_uint Pos.of_uint];
    [reflexivity | ..];
    cbn [parse_digits]; read_digit;
    [exact IHd | apply parse_digits_acc ..].
Qed.

Lemma parse_digits_positive (p : positive) :
  parse_digits 0 (NilEmpty.string_of_uint (Pos.to_uint p)) = Some (Z.pos p).
Proof.
  rewrite parse_digits_uint, DecimalPos.Unsigned.of_to. reflexivity.
Qed.

(** The text of a positive number starts with a digit and is not empty. *)
Lemma string_of_positive (p : positive) :
  exists ch rest,
    NilEmpty.string_of_uint (Pos.to_uint p) = String ch rest /\
    Ascii.eqb ch "-" = false /\ Ascii.eqb ch "+" = false.
Proof.
  pose proof (DecimalPos.Unsigned.to_uint_nonnil p) as Hnil.
  destruct (Pos.to_uint p); [contradiction | ..];
    cbn [NilEmpty.string_of_uint]; eexists _, _; repeat split; reflexivity.
Qed.

(** What [strconv.Atoi] reads back from the decimal text of an [int] is that
    [int]. *)
Lemma Atoi_format_int (n : Z) :
  min_int <= n <= max_int -> Atoi (format_int n) = Some n.
Proof.
  intros Hn. unfold format_int.
  destruct n as [| p | p]; cbn [Z.to_int NilZero.string_of_int].
  - reflexivity.
  - destruct (string_of_positive p) as (ch & rest & Hs & Hminus & Hplus).
    pose proof (parse_digits_positive p) as Hparse.
    pose proof (DecimalPos.Unsigned.to_uint_nonnil p) as Hnil.
    unfold NilZero.string_of_uint.
    destruct (Pos.to_uint p) eqn:Hd; try contradiction;
      rewrite Hs in *; unfold Atoi; rewrite Hminus, Hplus, Hparse;
      destruct (Z.leb_spec min_int (Z.pos p)); try lia;
      destruct (Z.leb_spec (Z.pos p) max_int); try lia; reflexivity.
  - destruct (string_of_positive p) as (ch & rest & Hs & Hminus & Hplus).
    pose proof (parse_digits_positive p) as Hparse.
    pose proof (DecimalPos.Unsigned.to_uint_nonnil p) as Hnil.
    unfold NilZero.string_of_uint.
    destruct (Pos.to_uint p) eqn:Hd; try contradiction;
      rewrite Hs in *; unfold Atoi; cbn [Ascii.eqb Bool.eqb]; cbv beta iota;
      rewrite Hparse;
      change (- Z.pos p) with (Z.neg p);
      destruct (Z.leb_spec min_int (Z.neg p)); try lia;
      destruct (Z.leb_spec (Z.neg p) max_int); try lia; reflexivity.
Qed.

End Numbers.

(** ** More on device selection *)

Section DeviceChoice.

Context {W Client : Type} (env : Env W Client).

Lemma reads_enumeration_from (devices : list Device) (start : nat) :
  reads (map (fun '(i, d) => menu_line (Z.of_nat i) d)
             (combine (seq start (List.length devices)) devices)) = 0%nat.
Proof.
  revert start. induction devices as [| d rest IH]; intros start;
    [reflexivity | apply (IH (S start))].
Qed.

Lemma reads_enumeration (devices : list Device) : reads (enumeration devices) = 0%nat.
Proof. apply reads_enumeration_from. Qed.

Lemma reads_complaint (line : string * option error) : reads [complaint line] = 0%nat.
Proof.
  unfold complaint. destruct (snd line); [reflexivity |].
  destruct (Atoi (fst line)); reflexivity.
Qed.

(** The line of the enumeration at position [i] shows the number [i + 1]
    beside the device at position [i]. *)
Lemma enumeration_nth (devices : list Device) (i : nat) (d : Device) :
  nth_error devices i = Some d ->
  nth_error (enumeration devices) i = Some (menu_line (Z.of_nat i + 1) d).
Proof.
  unfold enumeration.
  assert (H : forall start,
             nth_error devices i = Some d ->
             nth_error (map (fun '(i, d) => menu_line (Z.of_nat i) d)
                            (combine (seq start (List.length devices)) devices)) i =
             Some (menu_line (Z.of_nat (start + i)) d)).
  { revert i. induction devices as [| d0 rest IH]; intros i start Hd.
    - destruct i; discriminate.
    - destruct i as [| i]; cbn [List.length seq combine map nth_error] in *.
      + inversion Hd; subst. rewrite Nat.add_0_r. reflexivity.
      + rewrite (IH i (S start) Hd).
        replace (S start + i)%nat with (start + S i)%nat by lia. reflexivity. }
  intros Hd. rewrite (H 1%nat Hd).
  replace (Z.of_nat (1 + i)) with (Z.of_nat i + 1) by lia. reflexivity.
Qed.

(** X9.  In a set of at least two devices (not more than an [int] can
    count), the enumeration shows the number [i + 1] beside the device at
    position [i], and when the user types that number as it is shown,
    [getDevice] returns the id and type of that very device, in one round. *)
Theorem shown_number_selects {R} (devices : list Device) (fuel : nat)
    (s : State W) (i : nat) (d : Device) :
  (2 <= List.length devices)%nat ->
  Z.of_nat (List.length devices) <= max_int ->
  nth_error devices i = Some d ->
  fst (Scanln env (world s)) = (format_int (Z.of_nat i + 1), None) ->
  nth_error (enumeration devices) i = Some (menu_line (Z.of_nat i + 1) d) /\
  getDevice (R := R) env (S fuel) devices s =
  Done (format_int (DeviceId d), DeviceType d, None)
       (extend s (snd (Scanln env (world s)))
          (enumeration devices ++ [prompt devices; EvScanln])).
Proof.
  intros Hlen Hmax Hd Hline.
  split; [apply enumeration_nth; exact Hd |].
  assert (Hi : (i < List.length devices)%nat)
    by (apply nth_error_Some; congruence).
  assert (Hok : valid_selection devices (fst (Scanln env (world s)))
                  (Z.of_nat i + 1)).
  { rewrite Hline. unfold valid_selection. cbn [fst snd].
    split; [reflexivity |]. split; [| lia].
    apply Atoi_format_int. unfold min_int. lia. }
  rewrite getDevice_many by exact Hlen.
  erewrite bind_Done by (apply getDevice_loop_accept; exact Hok).
  replace (Z.of_nat i + 1 - 1) with (Z.of_nat i) by lia.
  erewrite bind_Done by (apply index_in_range; exact Hd).
  reflexivity.
Qed.

(** X7.  With an empty device set [getDevice] returns empty strings and the
    error "No MFA device returned by Onelogin" without printing or reading
    anything.  With a non-empty set, whenever it returns, the error is nil
    and the id and type are those of one of the devices of the set. *)
Theorem getDevice_returns_member {R} (fuel : nat) (s : State W) :
  getDevice (R := R) env fuel [] s =
  Done ("", "", Some "No MFA device returned by Onelogin") s /\
  (forall devices r s',
      devices <> [] ->
      getDevice (R := R) env fuel devices s = Done r s' ->
      exists d,
        In d devices /\ r = (format_int (DeviceId d), DeviceType d, None)).
Proof.
  split; [reflexivity |].
  intros devices r s' Hne Hrun.
  destruct devices as [| d1 [| d2 rest]]; [contradiction | |].
  - cbn in Hrun. inversion Hrun; subst. exists d1. split; [left |]; reflexivity.
  - rewrite getDevice_many in Hrun by (simpl; lia).
    pose proof (getDevice_loop_inv (R := R) env (d1 :: d2 :: rest) fuel s) as Hinv.
    unfold bind at 1 in Hrun.
    destruct (getDevice_loop env fuel (d1 :: d2 :: rest) s) as [v s1 | | |];
      try discriminate.
    destruct Hinv as (n & _ & _ & Hok & _).
    destruct (valid_selection_device _ _ _ Hok) as [d Hd].
    replace (v - 1) with (Z.of_nat (Z.to_nat (v - 1))) in Hrun
      by (destruct Hok as (_ & _ & ? & _); lia).
    erewrite bind_Done in Hrun by (apply index_in_range; exact Hd).
    inversion Hrun; subst.
    exists d. split; [eapply nth_error_In; exact Hd | reflexivity].
Qed.

Lemma getDevice_loop_starved {R} (devices : list Device) (fuel : nat) :
  forall s : State W,
    (forall i, (i < fuel)%nat -> invalid_input devices (read_at env i (world s))) ->
    exists evs,
      getDevice_loop (R := R) env fuel devices s =
      OutOfFuel (extend s (after_reads env fuel (world s)) evs) /\
      reads evs = fuel.
Proof.
  induction fuel as [| fuel IH]; intros s Hbad.
  - exists []. cbn [getDevice_loop after_reads]. unfold out_of_fuel.
    rewrite extend_nil. split; reflexivity.
  - rewrite getDevice_loop_reject by (apply (Hbad 0%nat); lia).
    destruct (IH (extend s (snd (Scanln env (world s)))
                    (enumeration devices ++
                     [prompt devices; EvScanln;
                      complaint (fst (Scanln env (world s)))])))
      as (evs & Hrun & Hreads).
    { intros i Hi. rewrite world_extend. apply (Hbad (S i)). lia. }
    eexists. rewrite Hrun. flatten_state. split; [reflexivity |].
    assert (Hround : forall line,
               reads [prompt devices; EvScanln; complaint line] = 1%nat).
    { intros line.
      change [prompt devices; EvScanln; complaint line]
        with ([prompt devices; EvScanln] ++ [complaint line])%list.
      rewrite reads_app, reads_complaint. reflexivity. }
    rewrite !reads_app, reads_enumeration, Hround, Hreads. reflexivity.
Qed.

(** X8.  The selection loop has no limit on the number of attempts: with at
    least two devices, as long as every line read is rejected (for instance
    because the input has ended and every read fails), [getDevice] does not
    return; after any number of rounds it has read that many lines and is
    still asking. *)
Theorem getDevice_never_gives_up {R} (devices : list Device) (fuel : nat)
    (s : State W) :
  (2 <= List.length devices)%nat ->
  (forall i, (i < fuel)%nat -> invalid_input devices (read_at env i (world s))) ->
  exists evs,
    getDevice (R := R) env fuel devices s =
    OutOfFuel (extend s (after_reads env fuel (world s)) evs) /\
    reads evs = fuel.
Proof.
  intros Hlen Hbad.
  destruct (getDevice_loop_starved (R := R) devices fuel s Hbad)
    as (evs & Hrun & Hreads).
  exists evs. split; [| exact Hreads].
  rewrite getDevice_many by exact Hlen.
  apply bind_OutOfFuel. exact Hrun.
Qed.

End DeviceChoice.

(** ** The push phase in every world *)

Section PushBounds.

Context {W Client : Type} (env : Env W Client).
Variables (c : Client) (a : OneLoginAppConfig) (token st deviceID : string).

Let p0 := push_params a st deviceID false.
Let p1 := push_params a st deviceID true.

Lemma assume_role_calls_app (t u : list Event) :
  assume_role_calls (t ++ u) = (assume_role_calls t ++ assume_role_calls u)%list.
Proof. apply flat_map_app. Qed.

Lemma assume_role_calls_polls (p : VerifyFactorParams) (k : nat) :
  assume_role_calls (polls token p k) = [].
Proof. induction k as [| k IH]; [reflexivity | exact IH]. Qed.

(** In every world the loop ends after [j] polls, with [j] within the
    budget: normally, with a response that some call answered, or by the
    return of the error of poll [j]. *)
Lemma pushPoll_shape (p : VerifyFactorParams) (n : nat) :
  forall timeout rMfa (s : State W),
    Z.to_nat timeout = n ->
    answered env c token rMfa ->
    exists w j,
      (j <= n)%nat /\
      ((exists r,
           pushPoll env c token p timeout rMfa s =
           Done r (extend s w (polls token p j)) /\
           answered env c token r) \/
       (exists e,
           pushPoll env c token p timeout rMfa s =
           Returned (None, Some e)
             (extend s w (polls token p j ++ [EvSpinnerStop])))).
Proof.
  induction n as [| n IH]; intros timeout rMfa s Hn Hans.
  - exists (world s), 0%nat. split; [lia |]. left. exists rMfa.
    rewrite pushPoll_exhausted by lia. cbn [polls]. rewrite extend_nil. auto.
  - destruct (String.eqb_spec (Status_Type rMfa) "pending") as [Hp | Hp].
    2:{ exists (world s), 0%nat. split; [lia |]. left. exists rMfa.
        rewrite pushPoll_settled by exact Hp. cbn [polls].
        rewrite extend_nil. auto. }
    destruct (fst (VerifyFactor env c token p (world s))) as [r1 | e] eqn:Hr1.
    + rewrite (pushPoll_step_ok env c token p timeout rMfa r1 s Hp ltac:(lia) Hr1).
      destruct (IH (timeout - MFAInterval) r1
                  (extend s (snd (VerifyFactor env c token p (world s)))
                     [EvSleep MFAInterval; EvVerifyFactor token p])
                  ltac:(unfold MFAInterval; lia))
        as (w & j & Hj & Hrun).
      { exists p, (world s). exact Hr1. }
      exists w, (S j). split; [lia |].
      rewrite !extend_extend in Hrun. exact Hrun.
    + rewrite (pushPoll_step_err env c token p timeout rMfa e s Hp ltac:(lia) Hr1).
      exists (snd (VerifyFactor env c token p (world s))), 1%nat.
      split; [lia |]. right. exists e. reflexivity.
Qed.

(** The push phase in every world: the calls it makes, the pauses it takes,
    and how it ends. *)
Lemma Get_push_shape (s : State W) :
  exists w evs j,
    (j <= 30)%nat /\
    verify_factor_calls evs = (token, p0) :: repeat (token, p1) j /\
    sleeps evs = repeat MFAInterval j /\
    reads evs = 0%nat /\
    assume_role_calls evs = [] /\
    ((exists r b,
         Get_push env c a token st deviceID s = Done (r, b) (extend s w evs) /\
         answered env c token r) \/
     (exists e,
         Get_push env c a token st deviceID s =
         Returned (None, Some e) (extend s w evs))).
Proof.
  assert (Hfacts : forall message j tail,
             verify_factor_calls tail = [] -> sleeps tail = [] ->
             reads tail = 0%nat -> assume_role_calls tail = [] ->
             verify_factor_calls
               (push_opening token p0 message ++ polls token p1 j ++ tail) =
             (token, p0) :: repeat (token, p1) j /\
             sleeps (push_opening token p0 message ++ polls token p1 j ++ tail) =
             repeat MFAInterval j /\
             reads (push_opening token p0 message ++ polls token p1 j ++ tail) =
             0%nat /\
             assume_role_calls
               (push_opening token p0 message ++ polls token p1 j ++ tail) = []).
  { intros message j tail H1 H2 H3 H4.
    rewrite !verify_factor_calls_app, !sleeps_app, !reads_app,
      !assume_role_calls_app.
    rewrite verify_factor_calls_polls, sleeps_polls, reads_polls,
      assume_role_calls_polls, H1, H2, H3, H4.
    cbn [verify_factor_calls sleeps assume_role_calls push_opening flat_map app].
    rewrite !app_nil_r. repeat split; reflexivity. }
  destruct (fst (VerifyFactor env c token p0 (world s))) as [r0 | e] eqn:Hr0.
  2:{ exists (snd (VerifyFactor env c token p0 (world s))),
        [EvSpinnerStart; EvVerifyFactor token p0; EvSpinnerStop], 0%nat.
      split; [lia |]. repeat (split; [reflexivity |]).
      right. exists e. apply Get_push_initial_err. exact Hr0. }
  rewrite (Get_push_initial_ok env c a token st deviceID s r0 Hr0).
  destruct (pushPoll_shape p1 30 MFAPushTimeout r0
              (extend s (snd (VerifyFactor env c token p0 (world s)))
                 (push_opening token p0 (Status_Message r0))) eq_refl)
    as (w & j & Hj & [(r & Hrun & Hans) | (e & Hrun)]).
  { exists p0, (world s). exact Hr0. }
  - erewrite bind_Done by exact Hrun.
    unfold SpinnerStop. erewrite bind_Done by apply emit_run.
    destruct (Status_Type r =? "pending")%string.
    + erewrite bind_Done by apply emit_run. unfold ret. flatten_state.
      exists w, (push_opening token p0 (Status_Message r0) ++
                 polls token p1 j ++ [EvSpinnerStop; timeout_notice])%list, j.
      split; [exact Hj |].
      destruct (Hfacts (Status_Message r0) j [EvSpinnerStop; timeout_notice])
        as (H1 & H2 & H3 & H4); try reflexivity.
      repeat (split; [assumption |]).
      left. exists r, false. split; [reflexivity | exact Hans].
    + unfold ret. flatten_state.
      exists w, (push_opening token p0 (Status_Message r0) ++
                 polls token p1 j ++ [EvSpinnerStop])%list, j.
      split; [exact Hj |].
      destruct (Hfacts (Status_Message r0) j [EvSpinnerStop])
        as (H1 & H2 & H3 & H4); try reflexivity.
      repeat (split; [assumption |]).
      left. exists r, true. split; [reflexivity | exact Hans].
  - erewrite bind_Returned by exact Hrun. flatten_state.
    exists w, (push_opening token p0 (Status_Message r0) ++
               polls token p1 j ++ [EvSpinnerStop])%list, j.
    split; [exact Hj |].
    destruct (Hfacts (Status_Message r0) j [EvSpinnerStop])
      as (H1 & H2 & H3 & H4); try reflexivity.
    repeat (split; [assumption |]).
    right. exists e. reflexivity.
Qed.

(** X3.  Whatever the identity provider answers, the push phase makes one
    initial verify-factor call with [doNotNotify] false and then at most 30
    polls with [doNotNotify] true, each after a pause of [MFAInterval]
    seconds (so it sleeps for at most [MFAPushTimeout] seconds in all); it
    reads nothing from the terminal, attempts no role assumption, and ends
    normally or by a [return]: it never panics. *)
Theorem push_phase_bounds (s : State W) :
  exists evs j,
    trace_of (Get_push env c a token st deviceID s) = (trace s ++ evs)%list /\
    Z.of_nat j * MFAInterval <= MFAPushTimeout /\
    verify_factor_calls evs = (token, p0) :: repeat (token, p1) j /\
    sleeps evs = repeat MFAInterval j /\
    reads evs = 0%nat /\
    assume_role_calls evs = [] /\
    is_panic (Get_push env c a token st deviceID s) = false.
Proof.
  destruct (Get_push_shape s)
    as (w & evs & j & Hj & H1 & H2 & H3 & H4 & Hrun).
  exists evs, j.
  assert (Hbudget : Z.of_nat j * MFAInterval <= MFAPushTimeout)
    by (unfold MFAInterval, MFAPushTimeout; lia).
  destruct Hrun as [(r & b & Hrun & _) | (e & Hrun)]; rewrite Hrun;
    repeat (split; [assumption || reflexivity |]); reflexivity.
Qed.

(** X4.  The push phase takes every status other than [pending] as final,
    [rejected] as much as [accepted], and up to the last poll of the budget:
    if the first call not answered [pending] is call [k] (the initial call
    or a poll, the 30th included) and it comes without error, the push phase
    keeps [pushOK], the OTP is not asked for, and [Get] goes on to the
    exchange with the payload of that response. *)
Theorem push_settles_on_any_status (k : nat) (rk : VerifyFactorResponse)
    (duration : Z) (s : State W) :
  Z.of_nat k * MFAInterval <= MFAPushTimeout ->
  (forall i, (i < k)%nat ->
             has_status "pending" (answer env c token p0 p1 i (world s)) = true) ->
  answer env c token p0 p1 k (world s) = Ok rk ->
  Status_Type rk <> "pending" ->
  exists r0,
    answer env c token p0 p1 0 (world s) = Ok r0 /\
    let evs := (push_opening token p0 (Status_Message r0) ++
                polls token p1 k ++ [EvSpinnerStop])%list in
    let s' := extend s (world_before env c token p0 p1 (S k) (world s)) evs in
    Get_push env c a token st deviceID s = Done (rk, true) s' /\
    reads evs = 0%nat /\
    Get_verify env c a token st deviceID MFADeviceOneLoginProtect duration s =
    Get_exchange env (Data rk) duration s'.
Proof.
  intros Hk Hpend Hrk Hnp.
  assert (Hr0 : exists r0, answer env c token p0 p1 0 (world s) = Ok r0 /\
                           (k = 0%nat -> r0 = rk) /\
                           (k <> 0%nat -> Status_Type r0 = "pending")).
  { destruct k as [| j].
    - exists rk. split; [exact Hrk |]. split; [reflexivity | contradiction].
    - destruct (has_status_Ok _ _ (Hpend 0%nat ltac:(lia))) as (r0 & Hr0 & Hp0).
      exists r0. split; [exact Hr0 |]. split; [discriminate | auto]. }
  destruct Hr0 as (r0 & Hr0 & Hzero & Hpos).
  exists r0. split; [exact Hr0 |]. cbv zeta.
  assert (Hpoll :
    pushPoll env c token p1 MFAPushTimeout r0
      (extend s (snd (VerifyFactor env c token p0 (world s)))
         (push_opening token p0 (Status_Message r0))) =
    Done rk
      (extend s (world_before env c token p0 p1 (S k) (world s))
         (push_opening token p0 (Status_Message r0) ++ polls token p1 k))).
  { destruct k as [| j].
    - rewrite (Hzero eq_refl). rewrite pushPoll_settled by exact Hnp.
      cbn [polls]. rewrite app_nil_r. reflexivity.
    - rewrite (pushPoll_accept env c token p1 j MFAPushTimeout r0 _ rk
                 (Hpos ltac:(discriminate))).
      + flatten_state. reflexivity.
      + unfold MFAInterval in Hk. lia.
      + intros i Hi. rewrite world_extend. apply (Hpend (S i)). lia.
      + rewrite world_extend. exact Hrk.
      + exact Hnp. }
  assert (Hpush :
    Get_push env c a token st deviceID s =
    Done (rk, true)
      (extend s (world_before env c token p0 p1 (S k) (world s))
         (push_opening token p0 (Status_Message r0) ++
          polls token p1 k ++ [EvSpinnerStop]))).
  { rewrite (Get_push_initial_ok env c a token st deviceID s r0 Hr0).
    erewrite bind_Done by exact Hpoll.
    unfold SpinnerStop. erewrite bind_Done by apply emit_run.
    apply String.eqb_neq in Hnp. rewrite Hnp.
    unfold ret. flatten_state. reflexivity. }
  split; [exact Hpush |]. split.
  - rewrite !reads_app, reads_polls. reflexivity.
  - rewrite Get_verify_push. erewrite bind_Done by exact Hpush. reflexivity.
Qed.

End PushBounds.

(** ** The flow after the device has been chosen, in every world *)

Section VerifyBounds.

Context {W Client : Type} (env : Env W Client).
Variables (c : Client) (a : OneLoginAppConfig) (token st deviceID : string).

Lemma within_app nv ns nr na nv' ns' nr' na' (t u : list Event) :
  within token a st deviceID nv ns nr na t ->
  within token a st deviceID nv' ns' nr' na' u ->
  within token a st deviceID (nv + nv') (ns + ns') (nr + nr') (na + na') (t ++ u).
Proof.
  intros (H1 & H2 & H3 & H4 & H5 & H6) (K1 & K2 & K3 & K4 & K5 & K6).
  unfold within.
  rewrite verify_factor_calls_app, sleeps_app, reads_app, assume_role_calls_app.
  rewrite !length_app.
  repeat split; try lia; apply Forall_app; split; assumption.
Qed.

Lemma within_le nv ns nr na nv' ns' nr' na' (t : list Event) :
  within token a st deviceID nv ns nr na t ->
  (nv <= nv')%nat -> (ns <= ns')%nat -> (nr <= nr')%nat -> (na <= na')%nat ->
  within token a st deviceID nv' ns' nr' na' t.
Proof.
  intros (H1 & H2 & H3 & H4 & H5 & H6) ? ? ? ?.
  unfold within. repeat split; try lia; assumption.
Qed.

Lemma Forall_repeat {A} (P : A -> Prop) (x : A) (n : nat) :
  P x -> Forall P (repeat x n).
Proof. intros H. induction n; simpl; constructor; assumption. Qed.

(** The push phase. *)
Lemma Get_push_within (s : State W) :
  exists w evs,
    within token a st deviceID 31 30 0 0 evs /\
    ((exists r b,
         Get_push env c a token st deviceID s = Done (r, b) (extend s w evs) /\
         answered env c token r) \/
     (exists e,
         Get_push env c a token st deviceID s =
         Returned (None, Some e) (extend s w evs))).
Proof.
  destruct (Get_push_shape env c a token st deviceID s)
    as (w & evs & j & Hj & H1 & H2 & H3 & H4 & Hrun).
  exists w, evs. split; [| exact Hrun].
  unfold within. rewrite H1, H2, H3, H4.
  cbn [List.length]. rewrite !repeat_length.
  repeat split; try lia.
  - constructor; [repeat split |]. apply Forall_repeat. repeat split.
  - apply Forall_repeat. reflexivity.
Qed.

(** The OTP entry. *)
Lemma Get_otp_within (s : State W) :
  exists w evs,
    within token a st deviceID 1 0 1 0 evs /\
    ((exists r,
         Get_otp env c a token st deviceID s = Done r (extend s w evs) /\
         answered env c token r) \/
     (exists e,
         Get_otp env c a token st deviceID s =
         Returned (None, Some e) (extend s w evs))).
Proof.
  pose proof (Get_otp_run env c a token st deviceID s) as Hrun. cbv zeta in Hrun.
  eexists _, _. split; [| rewrite Hrun].
  2:{ destruct (fst (VerifyFactor env c token _ _)) as [r | e] eqn:Hr.
      - left. exists r. split; [reflexivity |]. eexists _, _. exact Hr.
      - right. eexists. reflexivity. }
  unfold within. cbn. repeat split; try lia; repeat constructor.
Qed.

(** The exchange. *)
Lemma Get_exchange_within (data : string) (duration : Z) (s : State W) :
  exists w evs,
    within token a st deviceID 0 0 0 2 evs /\
    ((exists e,
         Get_exchange env data duration s =
         Returned (None, Some e) (extend s w evs)) \/
     (exists r d,
         Get_exchange env data duration s = Done r (extend s w evs) /\
         (d = duration \/ d = 3600) /\
         assumed env data d r)).
Proof.
  destruct (saml_Get env data) as [arn | e] eqn:Harn.
  - pose proof (Get_exchange_run env data duration arn s Harn) as Hrun.
    cbv zeta in Hrun. rewrite Hrun.
    destruct (snd (fst (AssumeSAMLRole env (Provider arn) (Role arn) data
                          duration (world s)))) as [e |].
    + destruct (e =? ErrDurationExceeded env)%string.
      * eexists _, _. split; [| right; eexists _, 3600].
        2:{ split; [reflexivity |]. split; [right; reflexivity |].
            exists arn. eexists. split; [exact Harn | reflexivity]. }
        unfold within. cbn. repeat split; try lia; constructor.
      * eexists _, _. split; [| right; eexists _, duration].
        2:{ split; [reflexivity |]. split; [left; reflexivity |].
            exists arn. eexists. split; [exact Harn | reflexivity]. }
        unfold within. cbn. repeat split; try lia; constructor.
    + eexists _, _. split; [| right; eexists _, duration].
      2:{ split; [reflexivity |]. split; [left; reflexivity |].
          exists arn. eexists. split; [exact Harn | reflexivity]. }
      unfold within. cbn. repeat split; try lia; constructor.
  - exists (world s), []. split.
    + unfold within. cbn. repeat split; try lia; constructor.
    + left. exists e. unfold Get_exchange. rewrite Harn.
      rewrite extend_nil. reflexivity.
Qed.

(** Everything after the choice of the device. *)
Lemma Get_verify_within (deviceType : string) (duration : Z) (s : State W) :
  exists w evs,
    within token a st deviceID 32 30 1 2 evs /\
    ((exists e,
         Get_verify env c a token st deviceID deviceType duration s =
         Returned (None, Some e) (extend s w evs)) \/
     (exists r rMfa d,
         Get_verify env c a token st deviceID deviceType duration s =
         Done r (extend s w evs) /\
         answered env c token rMfa /\
         (d = duration \/ d = 3600) /\
         assumed env (Data rMfa) d r)).
Proof.
  assert (Hexchange : forall rMfa s1 w1 evs1 nv ns nr,
             s1 = extend s w1 evs1 ->
             within token a st deviceID nv ns nr 0 evs1 ->
             (nv <= 32)%nat -> (ns <= 30)%nat -> (nr <= 1)%nat ->
             answered env c token rMfa ->
             exists w evs,
               within token a st deviceID 32 30 1 2 evs /\
               ((exists e,
                    Get_exchange env (Data rMfa) duration s1 =
                    Returned (None, Some e) (extend s w evs)) \/
                (exists r rMfa' d,
                    Get_exchange env (Data rMfa) duration s1 =
                    Done r (extend s w evs) /\
                    answered env c token rMfa' /\
                    (d = duration \/ d = 3600) /\
                    assumed env (Data rMfa') d r))).
  { intros rMfa s1 w1 evs1 nv ns nr -> Hin Hnv Hns Hnr Hans.
    destruct (Get_exchange_within (Data rMfa) duration (extend s w1 evs1))
      as (w2 & evs2 & Hin2 & Hrun).
    exists w2, (evs1 ++ evs2)%list. split.
    - eapply within_le; [apply (within_app _ _ _ _ _ _ _ _ _ _ Hin Hin2) | lia ..].
    - rewrite extend_extend in Hrun.
      destruct Hrun as [(e & Hrun) | (r & d & Hrun & Hd & Hfrom)].
      + left. exists e. exact Hrun.
      + right. exists r, rMfa, d. auto. }
  assert (Hotp : forall s1 w1 evs1 nv ns,
             s1 = extend s w1 evs1 ->
             within token a st deviceID nv ns 0 0 evs1 ->
             (nv <= 31)%nat -> (ns <= 30)%nat ->
             exists w evs,
               within token a st deviceID 32 30 1 2 evs /\
               ((exists e,
                    (rMfa <- Get_otp env c a token st deviceID ;;
                     Get_exchange env (Data rMfa) duration) s1 =
                    Returned (None, Some e) (extend s w evs)) \/
                (exists r rMfa d,
                    (rMfa <- Get_otp env c a token st deviceID ;;
                     Get_exchange env (Data rMfa) duration) s1 =
                    Done r (extend s w evs) /\
                    answered env c token rMfa /\
                    (d = duration \/ d = 3600) /\
                    assumed env (Data rMfa) d r))).
  { intros s1 w1 evs1 nv ns -> Hin Hnv Hns.
    destruct (Get_otp_within (extend s w1 evs1))
      as (w2 & evs2 & Hin2 & [(r & Hrun & Hans) | (e & Hrun)]);
      rewrite extend_extend in Hrun.
    - erewrite bind_Done by exact Hrun.
      eapply (Hexchange r _ w2 (evs1 ++ evs2)%list); [reflexivity | | | | | exact Hans].
      + apply (within_app _ _ _ _ _ _ _ _ _ _ Hin Hin2).
      + lia.
      + lia.
      + lia.
    - erewrite bind_Returned by exact Hrun.
      exists w2, (evs1 ++ evs2)%list. split; [| left; exists e; reflexivity].
      eapply within_le; [apply (within_app _ _ _ _ _ _ _ _ _ _ Hin Hin2) | lia ..]. }
  destruct (String.eqb_spec deviceType MFADeviceOneLoginProtect) as [-> | Hty].
  - rewrite Get_verify_push.
    destruct (Get_push_within s)
      as (w1 & evs1 & Hin & [(r & b & Hrun & Hans) | (e & Hrun)]).
    + erewrite bind_Done by exact Hrun. destruct b.
      * eapply (Hexchange r _ w1 evs1 31 30 0)%nat;
          [reflexivity | exact Hin | lia .. | exact Hans].
      * eapply (Hotp _ w1 evs1 31 30)%nat; [reflexivity | exact Hin | lia ..].
    + erewrite bind_Returned by exact Hrun.
      exists w1, evs1. split; [| left; exists e; reflexivity].
      eapply within_le; [exact Hin | lia ..].
  - rewrite Get_verify_otp by exact Hty.
    eapply (Hotp s (world s) [] 0%nat 0%nat);
      [symmetry; apply extend_nil | | lia ..].
    unfold within. cbn. repeat split; try lia; constructor.
Qed.

(** X5.  Whatever the collaborators answer, everything [Get] does after the
    device has been chosen costs at most 32 verify-factor calls, all made
    with the same token for the same application, device and state token,
    at most 30 pauses of [MFAInterval] seconds, at most one line read from
    the terminal (the OTP) and at most two role-assumption attempts; and it
    ends normally or by a [return], never in a panic. *)
Theorem verification_bounds (deviceType : string) (duration : Z) (s : State W) :
  exists evs,
    trace_of (Get_verify env c a token st deviceID deviceType duration s) =
    (trace s ++ evs)%list /\
    (List.length (verify_factor_calls evs) <= 32)%nat /\
    Forall (same_challenge token a st deviceID) (verify_factor_calls evs) /\
    (List.length (sleeps evs) <= 30)%nat /\
    Forall (eq MFAInterval) (sleeps evs) /\
    (reads evs <= 1)%nat /\
    (List.length (assume_role_calls evs) <= 2)%nat /\
    is_panic (Get_verify env c a token st deviceID deviceType duration s) = false.
Proof.
  destruct (Get_verify_within deviceType duration s)
    as (w & evs & (H1 & H2 & H3 & H4 & H5 & H6) & Hrun).
  exists evs.
  destruct Hrun as [(e & Hrun) | (r & rMfa & d & Hrun & _)]; rewrite Hrun;
    repeat (split; [assumption || reflexivity |]); reflexivity.
Qed.

End VerifyBounds.

(** ** The session stage in every world *)

Section Session.

Context {W Client : Type} (env : Env W Client).

Lemma bind_assoc {R A B C} (m : M W R A) (f : A -> M W R B) (g : B -> M W R C)
    (s : State W) :
  bind (bind m f) g s = bind m (fun x => bind (f x) g) s.
Proof. unfold bind. destruct (m s); reflexivity. Qed.

(** One step of a straight-line block whose oracle answers are known. *)
Ltac run_block :=
  repeat (first [ rewrite bind_assoc
                | erewrite bind_Done by apply emit_run
                | erewrite bind_Done by apply call_run
                | erewrite bind_Done by reflexivity
                | erewrite bind_Returned by reflexivity ];
          flatten_state;
          repeat match goal with
                 | H : _ = (_, _) |- _ => rewrite H
                 | H : String.eqb _ _ = _ |- _ => rewrite H
                 end;
          cbn [fst snd]; cbv beta iota).


(** Every way the session stage can end, with the answers of the oracles
    that lead there and the state it ends in. *)
Lemma Get_session_cases (app provider : string) (s : State W) :
  (exists e w1,
      GetOneLoginProvider env provider (world s) = (Err e, w1) /\
      Get_session env app provider s =
      Returned (None, Some ("reading provider config: " ++ e))
        (extend s w1 [EvGetOneLoginProvider provider])) \/
  (exists p w1 e w2,
      at_app env provider (world s) p w1 /\
      GetOneLoginApp env app w1 = (Err e, w2) /\
      Get_session env app provider s =
      Returned (None, Some ("reading config for app " ++ app ++ ": " ++ e))
        (extend s w2 [EvGetOneLoginProvider provider; EvGetOneLoginApp app])) \/
  (exists p a w2 e w3,
      at_client env provider app (world s) p a w2 /\
      NewClient env (Region p) w2 = (Err e, w3) /\
      Get_session env app provider s =
      Returned (None, Some e)
        (extend s w3 [EvGetOneLoginProvider provider; EvGetOneLoginApp app;
                      EvNewClient (Region p)])) \/
  (exists p a c w3 e w4,
      at_token env provider app (world s) p a c w3 /\
      GenerateTokens env c (ClientID p) (ClientSecret p) w3 = (Err e, w4) /\
      Get_session env app provider s =
      Returned (None, Some ("generating access token: " ++ e))
        (extend s w4 (session_opening provider app p))) \/
  (exists p a c token user w5 uevs e w6,
      at_password env provider app (world s) p a c token user w5 uevs /\
      GetPasswd env w5 = (Err e, w6) /\
      Get_session env app provider s =
      Returned (None, Some "Couldn't read password from terminal")
        (extend s w6 (session_opening provider app p ++ uevs ++ password_read))) \/
  (exists p a c token user w5 uevs pass w6 e w7,
      at_password env provider app (world s) p a c token user w5 uevs /\
      GetPasswd env w5 = (Ok pass, w6) /\
      GenerateSamlAssertion env c token (saml_params p a user pass) w6 =
        (Err e, w7) /\
      Get_session env app provider s =
      Returned (None, Some ("generating SAML assertion: " ++ e))
        (extend s w7
           (session_opening provider app p ++ uevs ++ password_read ++
            assertion_request token (saml_params p a user pass)))) \/
  (exists p a c token user w5 uevs pass w6 rSaml w7,
      at_password env provider app (world s) p a c token user w5 uevs /\
      GetPasswd env w5 = (Ok pass, w6) /\
      GenerateSamlAssertion env c token (saml_params p a user pass) w6 =
        (Ok rSaml, w7) /\
      Get_session env app provider s =
      Done (a, c, token, rSaml)
        (extend s w7
           (session_opening provider app p ++ uevs ++ password_read ++
            assertion_request token (saml_params p a user pass)))).
Proof.
  unfold Get_session, SpinnerStart, SpinnerStop, Print, do_Scanln.
  destruct (GetOneLoginProvider env provider (world s)) as [[p | e] w1] eqn:H1.
  2:{ left. exists e, w1. split; [reflexivity |]. run_block. reflexivity. }
  right.
  destruct (GetOneLoginApp env app w1) as [[a | e] w2] eqn:H2.
  2:{ left. exists p, w1, e, w2. split; [exact H1 |]. split; [exact H2 |].
      run_block. reflexivity. }
  right.
  assert (Hclient : at_client env provider app (world s) p a w2)
    by (exists w1; split; assumption).
  destruct (NewClient env (Region p) w2) as [[c | e] w3] eqn:H3.
  2:{ left. exists p, a, w2, e, w3. split; [exact Hclient |].
      split; [exact H3 |]. run_block. reflexivity. }
  right.
  assert (Htoken : at_token env provider app (world s) p a c w3)
    by (exists w2; split; assumption).
  destruct (GenerateTokens env c (ClientID p) (ClientSecret p) w3)
    as [[token | e] w4] eqn:H4.
  2:{ left. exists p, a, c, w3, e, w4. split; [exact Htoken |].
      split; [exact H4 |]. run_block. reflexivity. }
  right.
  assert (Huser4 : at_user env provider app (world s) p a c token w4)
    by (exists w3; split; assumption).
  destruct (Username p =? "")%string eqn:Huser.
  - destruct (Scanln env w4) as [[user err] w5] eqn:H5.
    assert (Hpass : at_password env provider app (world s) p a c token user w5
                      [EvPrint "OneLogin username: "; EvScanln]).
    { exists w4. split; [exact Huser4 |]. right.
      split; [apply String.eqb_eq; exact Huser |]. exists err. auto. }
    destruct (GetPasswd env w5) as [[pass | e] w6] eqn:H6.
    2:{ left. exists p, a, c, token, user, w5. eexists. exists e, w6.
        split; [exact Hpass |]. split; [exact H6 |]. run_block. reflexivity. }
    right.
    destruct (GenerateSamlAssertion env c token (saml_params p a user pass) w6)
      as [[rSaml | e] w7] eqn:H7; unfold saml_params in H7.
    2:{ left. exists p, a, c, token, user, w5. eexists. exists pass, w6, e, w7.
        split; [exact Hpass |]. split; [exact H6 |]. split; [exact H7 |].
        run_block. reflexivity. }
    right. exists p, a, c, token, user, w5. eexists. exists pass, w6, rSaml, w7.
    split; [exact Hpass |]. split; [exact H6 |]. split; [exact H7 |].
    run_block. reflexivity.
  - assert (Hpass : at_password env provider app (world s) p a c token
                      (Username p) w4 []).
    { exists w4. split; [exact Huser4 |]. left.
      split; [apply String.eqb_neq; exact Huser |]. auto. }
    destruct (GetPasswd env w4) as [[pass | e] w6] eqn:H6.
    2:{ left. exists p, a, c, token, (Username p), w4. eexists. exists e, w6.
        split; [exact Hpass |]. split; [exact H6 |]. run_block. reflexivity. }
    right.
    destruct (GenerateSamlAssertion env c token
                (saml_params p a (Username p) pass) w6)
      as [[rSaml | e] w7] eqn:H7; unfold saml_params in H7.
    2:{ left. exists p, a, c, token, (Username p), w4. eexists.
        exists pass, w6, e, w7.
        split; [exact Hpass |]. split; [exact H6 |]. split; [exact H7 |].
        run_block. reflexivity. }
    right. exists p, a, c, token, (Username p), w4. eexists.
    exists pass, w6, rSaml, w7.
    split; [exact Hpass |]. split; [exact H6 |]. split; [exact H7 |].
    run_block. reflexivity.
Qed.

Lemma reads_user_step (p : OneLoginProviderConfig) w4 user w5 uevs :
  user_step env p w4 user w5 uevs ->
  (Username p <> "" -> user = Username p /\ reads uevs = 0%nat) /\
  (Username p = "" -> reads uevs = 1%nat) /\
  passwords uevs = 0%nat /\ saml_request_params uevs = [] /\
  verify_factor_calls uevs = [] /\ assume_role_calls uevs = [].
Proof.
  intros [(Hne & -> & _ & ->) | (Heq & err & _ & ->)].
  - repeat split; try reflexivity. intros; contradiction.
  - repeat split; try reflexivity; intros; contradiction.
Qed.

(** X10.  When the session stage succeeds, it went through every one of its
    calls in this run, each in the world the previous call left: the provider
    configuration [p], the application configuration [a], the client [c] for
    the region of [p], the access token [token] for the client id and secret
    of [p], the user name, the password [pass], and then one single assertion
    request, made with [c] and [token] for that user name and password, the
    id of [a] and the subdomain of [p], which answered [rSaml].  The user
    name is the configured one when there is one, and then nothing is read
    from the terminal; it is the line this run read after the prompt when
    none is configured, and then exactly one line is read. *)
Theorem session_request (app provider : string) (s s1 : State W)
    (a : OneLoginAppConfig) (c : Client) (token : string)
    (rSaml : GenerateSamlAssertionResponse) :
  Get_session env app provider s = Done (a, c, token, rSaml) s1 ->
  exists p user w5 uevs pass w6 evs,
    at_password env provider app (world s) p a c token user w5 uevs /\
    GetPasswd env w5 = (Ok pass, w6) /\
    GenerateSamlAssertion env c token (saml_params p a user pass) w6 =
      (Ok rSaml, world s1) /\
    evs = (session_opening provider app p ++ uevs ++ password_read ++
           assertion_request token (saml_params p a user pass))%list /\
    s1 = extend s (world s1) evs /\
    saml_request_params evs = [(token, saml_params p a user pass)] /\
    passwords evs = 1%nat /\
    (Username p <> "" -> user = Username p /\ reads evs = 0%nat) /\
    (Username p = "" -> reads evs = 1%nat).
Proof.
  intros Hrun.
  destruct (Get_session_cases app provider s)
    as [(e & w1 & _ & H) | [(p & w1 & e & w2 & _ & _ & H)
       | [(p & a' & w2 & e & w3 & _ & _ & H)
       | [(p & a' & c' & w3 & e & w4 & _ & _ & H)
       | [(p & a' & c' & t' & user & w5 & uevs & e & w6 & _ & _ & H)
       | [(p & a' & c' & t' & user & w5 & uevs & pass & w6 & e & w7 & _ & _ & _ & H)
       | (p & a' & c' & t' & user & w5 & uevs & pass & w6 & rSaml' & w7
          & Hpass & H6 & H7 & H)]]]]]];
    rewrite H in Hrun; try discriminate.
  inversion Hrun; subst.
  destruct Hpass as (w4 & Huser4 & Hstep).
  destruct (reads_user_step p w4 user w5 uevs Hstep)
    as (Hconf & Hnone & Hpw & Hsaml & _ & _).
  exists p, user, w5, uevs, pass, w6. eexists.
  split; [exists w4; split; assumption |].
  split; [exact H6 |]. split; [exact H7 |].
  split; [reflexivity |]. split; [reflexivity |].
  assert (Hreq : forall t u,
             saml_request_params (t ++ u) =
             (saml_request_params t ++ saml_request_params u)%list)
    by (intros; apply flat_map_app).
  assert (Hpws : forall t u, passwords (t ++ u) = (passwords t + passwords u)%nat)
    by (intros; unfold passwords; rewrite filter_app, length_app; reflexivity).
  split; [rewrite !Hreq, Hsaml; reflexivity |].
  split; [rewrite !Hpws, Hpw; reflexivity |].
  split.
  - intros Hne. destruct (Hconf Hne) as [Hu Hr]. split; [exact Hu |].
    rewrite !reads_app, Hr. reflexivity.
  - intros Heq. rewrite !reads_app, (Hnone Heq). reflexivity.
Qed.

End Session.

(** ** The spinner *)

Section Spinner.

Context {W Client : Type} (env : Env W Client).

Lemma spinner_app (b : bool) (t u : list Event) :
  spinner b (t ++ u) =
  match spinner b t with
  | Some b' => spinner b' u
  | None => None
  end.
Proof.
  revert b. induction t as [| ev t IH]; intros b; [reflexivity |].
  destruct ev, b; cbn [List.app spinner]; try reflexivity; apply IH.
Qed.

Lemma tracks_ret {R A} (x : A) (b : bool) : tracks (W := W) (R := R) (ret x) b b.
Proof. intros s. exists []. rewrite app_nil_r. split; reflexivity. Qed.

Lemma tracks_return {R A} (r : R) (post : bool) :
  tracks (W := W) (A := A) (return_ r) false post.
Proof. intros s. exists []. rewrite app_nil_r. split; reflexivity. Qed.

Lemma tracks_panic {R A} (msg : string) (post : bool) :
  tracks (W := W) (R := R) (A := A) (panic msg) false post.
Proof. intros s. exists []. rewrite app_nil_r. split; reflexivity. Qed.

Lemma tracks_out_of_fuel {R A} (post : bool) :
  tracks (W := W) (R := R) (A := A) out_of_fuel false post.
Proof. intros s. exists []. rewrite app_nil_r. split; reflexivity. Qed.

Lemma tracks_emit {R} (ev : Event) (pre post : bool) :
  spinner pre [ev] = Some post -> tracks (W := W) (R := R) (emit ev) pre post.
Proof. intros H s. exists [ev]. split; [reflexivity | exact H]. Qed.

Lemma tracks_call {R A} (ev : Event) (f : W -> A * W) (pre post : bool) :
  spinner pre [ev] = Some post -> tracks (R := R) (call ev f) pre post.
Proof.
  intros H s. exists [ev]. rewrite call_run. split; [reflexivity | exact H].
Qed.

Lemma tracks_bind {R A B} (m : M W R A) (k : A -> M W R B) (pre mid post : bool) :
  tracks m pre mid -> (forall x, tracks (k x) mid post) ->
  tracks (bind m k) pre post.
Proof.
  intros Hm Hk s. destruct (Hm s) as (e1 & Ht1 & Hs1). unfold bind.
  destruct (m s) as [x s1 | r s1 | msg s1 | s1]; cbn [trace_of] in Ht1;
    try (exists e1; split; assumption).
  destruct (Hk x s1) as (e2 & Ht2 & Hs2).
  exists (e1 ++ e2)%list. split.
  - rewrite Ht2, Ht1, app_assoc. reflexivity.
  - rewrite spinner_app, Hs1. exact Hs2.
Qed.

Lemma tracks_try {A} (r : Result A) (wrap : error -> error) :
  tracks (W := W) (try r wrap) false false.
Proof. destruct r; [apply tracks_ret | apply tracks_return]. Qed.

Lemma tracks_index {R A} (xs : list A) (i : Z) :
  tracks (W := W) (R := R) (index xs i) false false.
Proof.
  unfold index. destruct ((i <? 0) || (Z.of_nat (List.length xs) <=? i));
    [apply tracks_panic |].
  destruct (nth_error xs (Z.to_nat i)); [apply tracks_ret | apply tracks_panic].
Qed.

Lemma tracks_deref {R A} (p : option A) :
  tracks (W := W) (R := R) (deref p) false false.
Proof. destruct p; [apply tracks_ret | apply tracks_panic]. Qed.

Lemma tracks_func {R R'} (body : M W R R) :
  tracks body false false -> tracks (func (R' := R') body) false false.
Proof.
  intros H s. destruct (H s) as (evs & Ht & Hs). exists evs. unfold func.
  destruct (body s); split; assumption || reflexivity.
Qed.

(** Blocks built from the steps above. *)
Ltac track :=
  repeat first
    [ apply tracks_ret
    | apply tracks_return
    | apply tracks_try
    | apply tracks_index
    | apply tracks_deref
    | apply tracks_emit; reflexivity
    | apply tracks_call; reflexivity
    | eapply tracks_bind; [| intros ?]
    | match goal with
      | |- tracks (if ?b then _ else _) _ _ => destruct b
      | |- tracks (match ?x with _ => _ end) _ _ => destruct x
      end ].

Lemma tracks_print_devices {R} (devices : list Device) :
  forall i, tracks (R := R) (print_devices (W := W) i devices) false false.
Proof.
  induction devices as [| d rest IH]; intros i; cbn [print_devices].
  - apply tracks_ret.
  - unfold Print. eapply tracks_bind; [apply tracks_emit; reflexivity |].
    intros _. apply IH.
Qed.

Lemma tracks_getDevice_loop {R} (devices : list Device) (fuel : nat) :
  tracks (R := R) (getDevice_loop env fuel devices) false false.
Proof.
  induction fuel as [| fuel IH]; cbn [getDevice_loop].
  - apply tracks_out_of_fuel.
  - unfold Print, do_Scanln.
    eapply tracks_bind; [apply tracks_print_devices |]. intros _.
    track; exact IH.
Qed.

Lemma tracks_getDevice {R} (devices : list Device) (fuel : nat) :
  tracks (R := R) (getDevice env fuel devices) false false.
Proof.
  unfold getDevice.
  destruct (Nat.eqb (List.length devices) 0); [apply tracks_ret |].
  destruct (Nat.eqb (List.length devices) 1); [track |].
  eapply tracks_bind; [apply tracks_getDevice_loop |]. intros selection. track.
Qed.

Lemma tracks_pushPoll c token p (n : nat) :
  forall timeout rMfa,
    Z.to_nat timeout = n ->
    tracks (pushPoll env c token p timeout rMfa) true true.
Proof.
  induction n as [| n IH]; intros timeout rMfa Hn; rewrite pushPoll_round;
    destruct (Z.gtb_spec timeout 0) as [Hpos | Hpos]; try lia;
    rewrite ?andb_false_r; try apply tracks_ret.
  rewrite andb_true_r.
  destruct (Status_Type rMfa =? "pending")%string; [| apply tracks_ret].
  unfold Sleep, do_VerifyFactor, SpinnerStop.
  eapply tracks_bind; [apply tracks_emit; reflexivity |]. intros _.
  eapply tracks_bind; [apply tracks_call; reflexivity |]. intros [rMfa' | e].
  - apply IH. unfold MFAInterval. lia.
  - track.
Qed.

Lemma tracks_Get_push c a token st deviceID :
  tracks (Get_push env c a token st deviceID) false false.
Proof.
  unfold Get_push, SpinnerStart, SpinnerStop, Print, do_VerifyFactor.
  eapply tracks_bind; [apply tracks_emit; reflexivity |]. intros _.
  eapply tracks_bind; [apply tracks_call; reflexivity |]. intros r.
  eapply tracks_bind; [apply tracks_emit; reflexivity |]. intros _.
  eapply tracks_bind; [apply tracks_try |]. intros rMfa.
  eapply tracks_bind; [apply tracks_emit; reflexivity |]. intros _.
  eapply tracks_bind; [apply tracks_emit; reflexivity |]. intros _.
  eapply tracks_bind; [apply (tracks_pushPoll _ _ _ 30); reflexivity |].
  intros rMfa'. track.
Qed.

Lemma tracks_Get_otp c a token st deviceID :
  tracks (Get_otp env c a token st deviceID) false false.
Proof.
  unfold Get_otp, SpinnerStart, SpinnerStop, Print, do_Scanln, do_VerifyFactor.
  track.
Qed.

Lemma tracks_Get_exchange data duration :
  tracks (Get_exchange env data duration) false false.
Proof.
  unfold Get_exchange, SpinnerStart, SpinnerStop, Log, do_AssumeSAMLRole.
  track.
Qed.

Lemma tracks_Get_session app provider :
  tracks (Get_session env app provider) false false.
Proof.
  unfold Get_session, SpinnerStart, SpinnerStop, Print, do_Scanln.
  track.
Qed.

Lemma tracks_Get_verify c a token st deviceID deviceType duration :
  tracks (Get_verify env c a token st deviceID deviceType duration) false false.
Proof.
  unfold Get_verify.
  eapply tracks_bind.
  - destruct (deviceType =? MFADeviceOneLoginProtect)%string; [| apply tracks_ret].
    eapply tracks_bind; [apply tracks_Get_push |]. intros [rMfa pushOK].
    apply tracks_ret.
  - intros [rMfa pushOK].
    eapply tracks_bind.
    + destruct (negb pushOK); [| apply tracks_ret].
      eapply tracks_bind; [apply tracks_Get_otp |]. intros r. apply tracks_ret.
    + intros rMfa'. eapply tracks_bind; [apply tracks_deref |].
      intros r. apply tracks_Get_exchange.
Qed.

(** X2.  In every run of [Get], however it ends, the spinner is used in
    order: it is never started twice nor stopped when it is not running,
    nothing is printed, logged or read from the terminal while it runs, and
    it is stopped when [Get] ends. *)
Theorem spinner_discipline (fuel : nat) (app provider : string) (duration : Z)
    (s : State W) :
  exists evs,
    trace_of (Get env fuel app provider duration s) = (trace s ++ evs)%list /\
    spinner false evs = Some false.
Proof.
  assert (H : tracks (Get env fuel app provider duration) false false).
  { unfold Get, Get_body. apply tracks_func.
    eapply tracks_bind; [apply tracks_Get_session |]. intros [[[a c] token] rSaml].
    eapply tracks_bind; [apply tracks_index |]. intros d0.
    eapply tracks_bind; [apply tracks_getDevice |].
    intros [[deviceID deviceType] err]. apply tracks_Get_verify. }
  destruct (H s) as (evs & Ht & Hs). exists evs. split; [exact Ht |].
  rewrite Hs. destruct (Get env fuel app provider duration s); reflexivity.
Qed.

End Spinner.

(** ** Where the response and the result of a run come from *)

Section Provenance.

Context {W Client : Type} (env : Env W Client).
Variables (c : Client) (a : OneLoginAppConfig) (token st deviceID : string).

Let p0 := push_params a st deviceID false.
Let p1 := push_params a st deviceID true.






End Provenance.

(** ** What [Get] returns *)

Section FlowResult.

Context {W Client : Type} (env : Env W Client).


(** X1.  When the session stage fails, [Get] returns nil credentials and an
    error, and has made no verify-factor call and no role-assumption attempt.
    The error is that of the first collaborator that failed in this run,
    asked in the world the calls before it left: wrapped in the message of
    its stage for the provider configuration, the application configuration,
    the access token and the assertion request; as it is for the client; and
    replaced by a fixed message for the password read.  The events up to the
    failure are exactly the calls of the stages before it and the failing
    call: a failure of the provider configuration, the application
    configuration, the client or the access token comes before anything is
    shown to or asked of the user. *)
Theorem session_error_stage (fuel : nat) (app provider : string) (duration : Z)
    (s s1 : State W) (r : GoResult) :
  Get_session env app provider s = Returned r s1 ->
  Get env fuel app provider duration s = Done r s1 /\
  fst r = None /\
  exists evs,
    s1 = extend s (world s1) evs /\
    verify_factor_calls evs = [] /\ assume_role_calls evs = [] /\
    ((exists e,
         GetOneLoginProvider env provider (world s) = (Err e, world s1) /\
         r = (None, Some ("reading provider config: " ++ e)) /\
         evs = [EvGetOneLoginProvider provider]) \/
     (exists p w1 e,
         at_app env provider (world s) p w1 /\
         GetOneLoginApp env app w1 = (Err e, world s1) /\
         r = (None, Some ("reading config for app " ++ app ++ ": " ++ e)) /\
         evs = [EvGetOneLoginProvider provider; EvGetOneLoginApp app]) \/
     (exists p a w2 e,
         at_client env provider app (world s) p a w2 /\
         NewClient env (Region p) w2 = (Err e, world s1) /\
         r = (None, Some e) /\
         evs = [EvGetOneLoginProvider provider; EvGetOneLoginApp app;
                EvNewClient (Region p)]) \/
     (exists p a c w3 e,
         at_token env provider app (world s) p a c w3 /\
         GenerateTokens env c (ClientID p) (ClientSecret p) w3 =
           (Err e, world s1) /\
         r = (None, Some ("generating access token: " ++ e)) /\
         evs = session_opening provider app p) \/
     (exists p a c token user w5 uevs e,
         at_password env provider app (world s) p a c token user w5 uevs /\
         GetPasswd env w5 = (Err e, world s1) /\
         r = (None, Some "Couldn't read password from terminal") /\
         evs = (session_opening provider app p ++ uevs ++ password_read)%list) \/
     (exists p a c token user w5 uevs pass w6 e,
         at_password env provider app (world s) p a c token user w5 uevs /\
         GetPasswd env w5 = (Ok pass, w6) /\
         GenerateSamlAssertion env c token (saml_params p a user pass) w6 =
           (Err e, world s1) /\
         r = (None, Some ("generating SAML assertion: " ++ e)) /\
         evs = (session_opening provider app p ++ uevs ++ password_read ++
                assertion_request token (saml_params p a user pass))%list)).
Proof.
  intros Hrun. split.
  { unfold Get, Get_body, func.
    erewrite bind_Returned by exact Hrun. reflexivity. }
  assert (Happ : forall t u,
             verify_factor_calls (t ++ u) =
             (verify_factor_calls t ++ verify_factor_calls u)%list)
    by (intros; apply flat_map_app).
  assert (Hasm : forall t u,
             assume_role_calls (t ++ u) =
             (assume_role_calls t ++ assume_role_calls u)%list)
    by (intros; apply flat_map_app).
  destruct (Get_session_cases env app provider s)
    as [(e & w1 & H1 & H) | [(p & w1 & e & w2 & Hat & H2 & H)
       | [(p & a & w2 & e & w3 & Hat & H3 & H)
       | [(p & a & c & w3 & e & w4 & Hat & H4 & H)
       | [(p & a & c & t & user & w5 & uevs & e & w6 & Hat & H6 & H)
       | [(p & a & c & t & user & w5 & uevs & pass & w6 & e & w7
           & Hat & H6 & H7 & H)
       | (p & a & c & t & user & w5 & uevs & pass & w6 & rSaml & w7
          & _ & _ & _ & H)]]]]]];
    rewrite H in Hrun; try discriminate; inversion Hrun; subst;
    (split; [reflexivity |]); eexists; (split; [reflexivity |]).
  - split; [reflexivity |]. split; [reflexivity |].
    left. exists e. auto.
  - split; [reflexivity |]. split; [reflexivity |].
    right; left. exists p, w1, e. auto.
  - split; [reflexivity |]. split; [reflexivity |].
    do 2 right; left. exists p, a, w2, e. auto.
  - split; [reflexivity |]. split; [reflexivity |].
    do 3 right; left. exists p, a, c, w3, e. auto.
  - destruct Hat as (w4 & Hu & Hstep).
    destruct (reads_user_step env p w4 user w5 uevs Hstep)
      as (_ & _ & _ & _ & Hvf & Har).
    split; [unfold verify_factor_calls in *; cbn [flat_map List.app];
            rewrite !flat_map_app, Hvf; reflexivity |].
    split; [unfold assume_role_calls in *; cbn [flat_map List.app];
            rewrite !flat_map_app, Har; reflexivity |].
    do 4 right; left. exists p, a, c, t, user, w5, uevs, e.
    split; [exists w4; auto |]. auto.
  - destruct Hat as (w4 & Hu & Hstep).
    destruct (reads_user_step env p w4 user w5 uevs Hstep)
      as (_ & _ & _ & _ & Hvf & Har).
    split; [unfold verify_factor_calls in *; cbn [flat_map List.app];
            rewrite !flat_map_app, Hvf; reflexivity |].
    split; [unfold assume_role_calls in *; cbn [flat_map List.app];
            rewrite !flat_map_app, Har; reflexivity |].
    do 5 right. exists p, a, c, t, user, w5, uevs, pass, w6, e.
    split; [exists w4; auto |]. auto.
Qed.


End FlowResult.

(** ** More runs in the scripted world *)

(** The access token is refused: [Get] returns the error of that stage. *)
Lemma session_error_stage_witness :
  value_of
    (Get Mock.env 0 "app" "prov" 3600
       (Mock.start
          {| Mock.provider_cfg := Ok Mock.provider0;
             Mock.app_cfg := Ok {| ID := "app" |};
             Mock.client := Ok tt;
             Mock.access_token := Err "bad client secret";
             Mock.lines := [];
             Mock.passwd := Ok "pw";
             Mock.assertion := Ok {| saml_Data := [] |};
             Mock.factors := [];
             Mock.roles := [] |})) =
  Some (None, Some "generating access token: bad client secret").
Proof.
  edestruct (session_error_stage Mock.env 0 "app" "prov" 3600
               (Mock.start
                  {| Mock.provider_cfg := Ok Mock.provider0;
                     Mock.app_cfg := Ok {| ID := "app" |};
                     Mock.client := Ok tt;
                     Mock.access_token := Err "bad client secret";
                     Mock.lines := [];
                     Mock.passwd := Ok "pw";
                     Mock.assertion := Ok {| saml_Data := [] |};
                     Mock.factors := [];
                     Mock.roles := [] |})) as [Hget _].
  - vm_compute. reflexivity.
  - rewrite Hget. reflexivity.
Defined.

(** The first poll is answered [rejected]: the push phase keeps [pushOK]. *)
Lemma push_settles_on_any_status_witness :
  value_of
    (Get_push Mock.env tt {| ID := "app" |} "T" "st" "7"
       (Mock.start
          (Mock.world0 [] []
             [Ok (Mock.response "pending" "");
              Ok (Mock.response "rejected" "SAML")] []))) =
  Some (Mock.response "rejected" "SAML", true).
Proof.
  destruct (push_settles_on_any_status Mock.env tt {| ID := "app" |} "T" "st" "7"
              1 (Mock.response "rejected" "SAML") 3600
              (Mock.start
                 (Mock.world0 [] []
                    [Ok (Mock.response "pending" "");
                     Ok (Mock.response "rejected" "SAML")] [])))
    as (r0 & _ & Hpush & _).
  - unfold MFAInterval, MFAPushTimeout. lia.
  - intros i Hi. destruct i as [| i]; [reflexivity | lia].
  - reflexivity.
  - discriminate.
  - rewrite Hpush. reflexivity.
Defined.


(** The only device of a set is the one returned. *)
Lemma getDevice_returns_member_witness :
  exists d,
    In d [Mock.yubikey] /\
    ("12", "Yubico YubiKey", @None error) =
    (format_int (DeviceId d), DeviceType d, None).
Proof.
  destruct (getDevice_returns_member (R := GoResult) Mock.env 0
              (Mock.start (Mock.world0 [] [] [] []))) as [_ Hmember].
  eapply Hmember; [discriminate | reflexivity].
Defined.

(** The input has ended: three rounds, and the loop is still asking. *)
Lemma getDevice_never_gives_up_witness :
  exists s',
    getDevice (R := GoResult) Mock.env 3 [Mock.yubikey; Mock.protect]
      (Mock.start (Mock.world0 [] [] [] [])) = OutOfFuel s'.
Proof.
  destruct (getDevice_never_gives_up (R := GoResult) Mock.env
              [Mock.yubikey; Mock.protect] 3
              (Mock.start (Mock.world0 [] [] [] [])))
    as (evs & Hrun & _).
  - simpl. lia.
  - intros i Hi v (Herr & _).
    destruct i as [| [| [| i]]]; [| | | lia]; vm_compute in Herr; discriminate.
  - eexists. exact Hrun.
Defined.

(** The user types the [2] shown beside the second device. *)
Lemma shown_number_selects_witness :
  value_of
    (getDevice (R := GoResult) Mock.env 1 [Mock.yubikey; Mock.protect]
       (Mock.start (Mock.world0 [] [("2", None)] [] []))) =
  Some ("7", "OneLogin Protect", None).
Proof.
  destruct (shown_number_selects (R := GoResult) Mock.env
              [Mock.yubikey; Mock.protect] 0
              (Mock.start (Mock.world0 [] [("2", None)] [] []))
              1 Mock.protect) as [_ Hget].
  - simpl. lia.
  - vm_compute. discriminate.
  - reflexivity.
  - reflexivity.
  - rewrite Hget. reflexivity.
Defined.

(** A configured user name: the assertion is requested for it. *)
Lemma session_request_witness :
  exists user pass evs,
    saml_request_params evs =
      [("T", {| UsernameOrEmail := user; Password := pass;
                saml_AppId := "app"; saml_Subdomain := "corp" |})] /\
    user = "alice" /\ reads evs = 0%nat.
Proof.
  edestruct (session_request Mock.env "app" "prov"
               (Mock.start (Mock.world0 [] [] [] [])))
    as (p & user & w5 & uevs & pass & w6 & evs & Hat & _ & _ & _ & _ & Hreq & _
        & Hconf & _).
  - vm_compute. reflexivity.
  - destruct Hat as (w4 & (w3 & (w2 & (w1 & Hp & _) & _) & _) & _).
    unfold at_app in Hp. vm_compute in Hp. injection Hp as Hp _. subst p.
    destruct Hconf as [Huser Hreads]; [discriminate |].
    exists user, pass, evs. split; [exact Hreq |]. split; assumption.
Defined.
